(** * The Bcut ASR client: upload, submit, poll, map, cache

    A shallow embedding of the speech-recognition client of [src/asr.go]
    (with [src/asr_base.go] and [src/models/models.go]; [src/ccode.go] is the
    same client in one file) and of the upload negotiation of [src/main.go]
    (which [src/unnamed/part_002] repeats), followed by the properties the
    specification states about them.

    Conventions of the embedding.
    - A Go [int] is a [Z] in the signed 64-bit range; products computed by
      the code are wrapped with [wrap64].
    - A Go [float64] is a primitive binary64 [float]; [interface{}] values
      are the inductive [iface], a decoded JSON object is a
      [gmap string iface].
    - Everything the client does to the outside (HTTP round trips, sleeping,
      the progress callback, the select on the context, cache files, warning
      and error log lines) is an [event] appended to the [trace] of the
      [machine]; the length of the trace is the logical time, and whatever
      the outside answers is read from an [env] at that time.
    - A method with receiver [b *BcutASR] is a computation in the monad [M],
      whose state holds the receiver, the trace and the cache files and whose
      result is a value, a Go [error], or a run-time panic.
    - [utils.Info] and [utils.Debug] lines, request headers and the message
      text of callbacks and errors are left out; [utils.Warn] and
      [utils.Error] lines are kept as [EvLog]. *)

From Stdlib Require Import ZArith Floats Uint63 Lia.
From Stdlib Require Import Strings.Byte.
From stdpp Require Import gmap strings list fin_maps sorting.

Set Warnings "-register-all,-inexact-float".
#[local] Open Scope Z_scope.

(** ** Go integers and floats *)

Module GoNum.

Definition min_int64 : Z := - 2 ^ 63.
Definition max_int64 : Z := 2 ^ 63 - 1.

(** Two's complement wrap-around of 64-bit [int] arithmetic. *)
Definition wrap64 (z : Z) : Z := (z + 2 ^ 63) mod 2 ^ 64 - 2 ^ 63.

(** [float64(i)] for an [int] [i]. *)
Definition float64_of_int (i : Z) : float :=
  if i <? 0 then PrimFloat.opp (PrimFloat.of_uint63 (Uint63.of_Z (- i)))
  else PrimFloat.of_uint63 (Uint63.of_Z i).

(** The integer part of a finite float, rounded towards zero. *)
Definition float64_trunc (f : float) : option Z :=
  match Prim2SF f with
  | S754_zero _ => Some 0
  | S754_finite s m e =>
      let v := if 0 <=? e then Z.pos m * 2 ^ e else Z.pos m / 2 ^ (- e) in
      Some (if s then - v else v)
  | S754_infinity _ | S754_nan => None
  end.

(** [int(f)] for a [float64] [f]: truncation; where the value does not fit
    (or is not a number) the 64-bit x86 conversion yields the least int. *)
Definition int_of_float64 (f : float) : Z :=
  match float64_trunc f with
  | Some z => if (min_int64 <=? z) && (z <=? max_int64) then z else min_int64
  | None => min_int64
  end.

End GoNum.
Export GoNum.

(** ** Dynamic values and type assertions *)

(** The values an [interface{}] holds in this program: what
    [encoding/json] decodes to (nil, bool, float64, string, slice, map) and
    the [int]s the client puts into request payloads. *)
Inductive iface :=
| Nil
| Bool (b : bool)
| Float64 (f : float)
| Int (z : Z)
| Str (s : string)
| Slice (l : list iface)
| Map (m : gmap string iface).

(** [v, ok := m[k].(T)]: a missing key reads as a nil interface, on which
    every assertion fails. *)
Definition assert_map (v : option iface) : option (gmap string iface) :=
  match v with Some (Map m) => Some m | _ => None end.
Definition assert_string (v : option iface) : option string :=
  match v with Some (Str s) => Some s | _ => None end.
Definition assert_float64 (v : option iface) : option float :=
  match v with Some (Float64 f) => Some f | _ => None end.
Definition assert_slice (v : option iface) : option (list iface) :=
  match v with Some (Slice l) => Some l | _ => None end.

(** ** Data model *)

(** [models.DataSegment]. *)
Record DataSegment := mkSegment {
  Text : string;
  StartTime : float;
  EndTime : float
}.

(** [BaseASR] and [BcutASR], flattened. *)
Record BcutASR := mkBcutASR {
  AudioPath : string;
  FileBinary : list byte;
  UseCache : bool;
  taskID : string;
  etags : list string;
  inBossKey : string;
  resourceID : string;
  uploadID : string;
  uploadURLs : list string;
  perSize : Z;
  clips : Z;
  downloadURL : string
}.

(** What [NewBcutASR] builds from a file that was read. *)
Definition NewBcutASR (audioPath : string) (fileBytes : list byte)
    (useCache : bool) : BcutASR :=
  mkBcutASR audioPath fileBytes useCache "" [] "" "" "" [] 0 0 "".

Definition set_taskID (v : string) (b : BcutASR) : BcutASR :=
  mkBcutASR (AudioPath b) (FileBinary b) (UseCache b) v (etags b)
    (inBossKey b) (resourceID b) (uploadID b) (uploadURLs b) (perSize b)
    (clips b) (downloadURL b).
Definition set_etags (v : list string) (b : BcutASR) : BcutASR :=
  mkBcutASR (AudioPath b) (FileBinary b) (UseCache b) (taskID b) v
    (inBossKey b) (resourceID b) (uploadID b) (uploadURLs b) (perSize b)
    (clips b) (downloadURL b).
Definition set_inBossKey (v : string) (b : BcutASR) : BcutASR :=
  mkBcutASR (AudioPath b) (FileBinary b) (UseCache b) (taskID b) (etags b)
    v (resourceID b) (uploadID b) (uploadURLs b) (perSize b)
    (clips b) (downloadURL b).
Definition set_resourceID (v : string) (b : BcutASR) : BcutASR :=
  mkBcutASR (AudioPath b) (FileBinary b) (UseCache b) (taskID b) (etags b)
    (inBossKey b) v (uploadID b) (uploadURLs b) (perSize b)
    (clips b) (downloadURL b).
Definition set_uploadID (v : string) (b : BcutASR) : BcutASR :=
  mkBcutASR (AudioPath b) (FileBinary b) (UseCache b) (taskID b) (etags b)
    (inBossKey b) (resourceID b) v (uploadURLs b) (perSize b)
    (clips b) (downloadURL b).
Definition set_uploadURLs (v : list string) (b : BcutASR) : BcutASR :=
  mkBcutASR (AudioPath b) (FileBinary b) (UseCache b) (taskID b) (etags b)
    (inBossKey b) (resourceID b) (uploadID b) v (perSize b)
    (clips b) (downloadURL b).
Definition set_perSize (v : Z) (b : BcutASR) : BcutASR :=
  mkBcutASR (AudioPath b) (FileBinary b) (UseCache b) (taskID b) (etags b)
    (inBossKey b) (resourceID b) (uploadID b) (uploadURLs b) v
    (clips b) (downloadURL b).
Definition set_clips (v : Z) (b : BcutASR) : BcutASR :=
  mkBcutASR (AudioPath b) (FileBinary b) (UseCache b) (taskID b) (etags b)
    (inBossKey b) (resourceID b) (uploadID b) (uploadURLs b) (perSize b)
    v (downloadURL b).
Definition set_downloadURL (v : string) (b : BcutASR) : BcutASR :=
  mkBcutASR (AudioPath b) (FileBinary b) (UseCache b) (taskID b) (etags b)
    (inBossKey b) (resourceID b) (uploadID b) (uploadURLs b) (perSize b)
    (clips b) v.

(** ** Constants of [asr.go] *)

Definition API_BASE_URL : string :=
  "https://member.bilibili.com/x/bcut/rubick-interface".
Definition API_REQ_UPLOAD : string := API_BASE_URL +:+ "/resource/create".
Definition API_COMMIT_UPLOAD : string :=
  API_BASE_URL +:+ "/resource/create/complete".
Definition API_CREATE_TASK : string := API_BASE_URL +:+ "/task".
Definition API_QUERY_RESULT : string := API_BASE_URL +:+ "/task/result".

Definition ModelIDUpload : string := "8".
Definition ModelIDQuery : string := "7".

Definition MaxRetries : Z := 500.
Definition TimeOffset : float := 0.105%float.
(** A [time.Duration] counts nanoseconds. *)
Definition Second : Z := 1000000000.
Definition RetryBaseDelay : Z := Second.
Definition RetryLongDelay : Z := Second * 3.

(** ** The outside world *)

Inductive body :=
| NoBody
| JSONBody (payload : gmap string iface)
| Bytes (data : list byte).

Record http_request := mkRequest {
  req_method : string;
  req_url : string;
  req_body : body
}.

(** What the client can see of a response: the [Etag] header (empty when
    absent), the bytes [io.ReadAll] returned and whether it returned them
    without an error. *)
Record http_response := mkResponse {
  resp_etag : string;
  resp_body : string;
  resp_read_ok : bool
}.

(** [client.Do]: a transport error or a response. *)
Inductive http_outcome :=
| DoError
| DoOk (r : http_response).

(** [ctx.Err()] once the context is done. *)
Inductive ctx_err := Canceled | DeadlineExceeded.

(** A [context.Context]: never done, or done from a logical time on, with
    the reason. *)
Definition context : Type := option (nat * ctx_err).

Definition ctx_done (ctx : context) (t : nat) : option ctx_err :=
  match ctx with
  | Some (t0, why) => if (t0 <=? t)%nat then Some why else None
  | None => None
  end.

Inductive level := Warn | Error.

Inductive event :=
| EvStat (path : string)
| EvReadFile (path : string)
| EvMkdirAll (dir : string)
| EvWriteFile (path : string) (data : string)
| EvHttp (req : http_request)
| EvSelect
| EvCallback (percent : Z)
| EvSleep (d : Z)
| EvLog (l : level).

(** The answers of the outside and of the Go libraries the client calls.
    Answers may depend on the logical time of the call. *)
Record env := mkEnv {
  http_do : nat -> http_request -> http_outcome;
  url_ok : string -> bool;
  json_Unmarshal : string -> option (gmap string iface);
  md5_hex : list byte -> string;
  filepath_Join : string -> string -> string;
  fs_fails : nat -> bool;
  json_MarshalIndent : list DataSegment -> option string;
  json_Unmarshal_segments : string -> option (list DataSegment)
}.

(** ** The monad of methods *)

Inductive error :=
| ErrNewRequest
| ErrSend
| ErrReadBody
| ErrJSON
| ErrNoData
| ErrField (name : string)
| ErrUploadURL (i : Z)
| ErrNoEtag (i : Z)
| ErrEmptyResult
| ErrParseResult
| ErrTaskFailed (state : float)
| ErrTimeout
| ErrCtx (why : ctx_err)
| ErrMkdir
| ErrMarshal
| ErrWrite
| ErrUpload (e : error)
| ErrCreateTask (e : error)
| ErrQuery (e : error).

Inductive outcome (A : Type) :=
| Ok (a : A)
| Err (e : error)
| Panic.
Arguments Ok {A} a.
Arguments Err {A} e.
Arguments Panic {A}.

Record machine := mkMachine {
  self : BcutASR;
  trace : list event;
  fs : gmap string string
}.

Definition M (A : Type) : Type := machine -> outcome A * machine.

Definition ret {A} (a : A) : M A := fun m => (Ok a, m).
Definition bind {A B} (x : M A) (k : A -> M B) : M B :=
  fun m =>
    match x m with
    | (Ok a, m') => k a m'
    | (Err e, m') => (Err e, m')
    | (Panic, m') => (Panic, m')
    end.
Definition throw {A} (e : error) : M A := fun m => (Err e, m).
Definition panic {A} : M A := fun m => (Panic, m).
(** [if err := x; err != nil { h err }]: run [h] on the error of [x]. *)
Definition on_error {A} (x : M A) (h : error -> M A) : M A :=
  fun m =>
    match x m with
    | (Err e, m') => h e m'
    | r => r
    end.

Notation "x <- c1 ;; c2" := (bind c1 (fun x => c2))
  (at level 100, c1 at next level, right associativity).
Notation "c1 ;; c2" := (bind c1 (fun _ => c2))
  (at level 100, right associativity).

Definition emit (e : event) : M unit :=
  fun m => (Ok tt, mkMachine (self m) (trace m ++ [e]) (fs m)).
Definition clock : M nat := fun m => (Ok (length (trace m)), m).
Definition this : M BcutASR := fun m => (Ok (self m), m).
Definition update (f : BcutASR -> BcutASR) : M unit :=
  fun m => (Ok tt, mkMachine (f (self m)) (trace m) (fs m)).
Definition files : M (gmap string string) := fun m => (Ok (fs m), m).
Definition store (path data : string) : M unit :=
  fun m => (Ok tt, mkMachine (self m) (trace m) (<[path := data]> (fs m))).
Definition when (c : bool) (x : M unit) : M unit := if c then x else ret tt.

(** The events a computation appended, read off two machine states. *)
Definition events_since (m m' : machine) : list event :=
  drop (length (trace m)) (trace m').

Definition requests (evs : list event) : list http_request :=
  omap (fun e => match e with EvHttp r => Some r | _ => None end) evs.
Definition sleeps (evs : list event) : list Z :=
  omap (fun e => match e with EvSleep d => Some d | _ => None end) evs.
Definition callbacks (evs : list event) : list Z :=
  omap (fun e => match e with EvCallback p => Some p | _ => None end) evs.

(** ** The client ([asr.go], [asr_base.go]) *)

(** Control after one pass through a loop body: go on with the next
    iteration, or leave the function with a value. *)
Inductive step (A : Type) :=
| Continue
| Return (a : A).
Arguments Continue {A}.
Arguments Return {A} a.

(** [s1 == ""]. *)
Definition is_empty (s : string) : bool := String.eqb s "".

(** [buf[lo:hi]]; [None] is the run-time panic for bounds out of range.
    (At its one call site [hi] never exceeds [len(buf)], so the capacity of
    the slice plays no part.) *)
Definition go_slice (buf : list byte) (lo hi : Z) : option (list byte) :=
  if (0 <=? lo) && (lo <=? hi) && (hi <=? Z.of_nat (length buf))
  then Some (take (Z.to_nat (hi - lo)) (drop (Z.to_nat lo) buf))
  else None.

(** The progress percentage of poll iteration [i]. *)
Definition progress (i : Z) : Z :=
  let progress :=
    wrap64 (60 + int_of_float64
                   (float64_of_int i / float64_of_int MaxRetries * 39)%float) in
  if progress >? 99 then 99 else progress.

(** The pause after a pending poll iteration [i]. *)
Definition sleepDuration (i : Z) : Z :=
  let d := RetryBaseDelay in
  let d := if i >? 20 then RetryBaseDelay * 2 else d in
  let d := if i >? 50 then RetryLongDelay else d in
  d.

Definition query_url (task : string) : string :=
  API_QUERY_RESULT +:+ "?model_id=" +:+ ModelIDQuery +:+ "&task_id=" +:+ task.

(** The loop of [buildEtags], [i] being the index of the head of [l]. *)
Fixpoint buildEtags_loop (l : list string) (i : Z) (etagsStr : string)
    : string :=
  match l with
  | [] => etagsStr
  | etag :: rest =>
      let etagsStr := if i >? 0 then etagsStr +:+ "," else etagsStr in
      buildEtags_loop rest (i + 1) (etagsStr +:+ etag)
  end.

(** The loop of [makeSegments]. *)
Fixpoint makeSegments_loop (utterances : list iface)
    (segments : list DataSegment) : list DataSegment :=
  match utterances with
  | [] => segments
  | u :: rest =>
      match assert_map (Some u) with
      | None => makeSegments_loop rest segments
      | Some utterance =>
          let text := default "" (assert_string (utterance !! "transcript")) in
          let startTimeRaw :=
            default 0%float (assert_float64 (utterance !! "start_time")) in
          let endTimeRaw :=
            default 0%float (assert_float64 (utterance !! "end_time")) in
          let startTime := (startTimeRaw / 1000 + TimeOffset)%float in
          let endTime := (endTimeRaw / 1000 + TimeOffset)%float in
          makeSegments_loop rest
            (segments ++ [mkSegment text startTime endTime])
      end
  end.

Section Client.

Context (E : env).

(** [client.Do(req)]: the request goes out, the outside answers. *)
Definition client_Do (req : http_request) : M http_outcome :=
  t <- clock ;;
  emit (EvHttp req) ;;
  ret (http_do E t req).

(** A single-shot JSON call: send, read the body, decode it, take [data].
    (Encoding the payload and building the request for a constant URL cannot
    fail, so those two error returns of the source are left out.) *)
Definition call_json (req : http_request) : M (gmap string iface) :=
  o <- client_Do req ;;
  match o with
  | DoError => throw ErrSend
  | DoOk resp =>
      if negb (resp_read_ok resp) then throw ErrReadBody else
      match json_Unmarshal E (resp_body resp) with
      | None => throw ErrJSON
      | Some result =>
          match assert_map (result !! "data") with
          | None => throw ErrNoData
          | Some data => ret data
          end
      end
  end.

Definition requestUpload_payload (b : BcutASR) : gmap string iface :=
  {[ "type" := Int 2;
     "name" := Str "audio.mp3";
     "size" := Int (Z.of_nat (length (FileBinary b)));
     "ResourceFileType" := Str "mp3";
     "model_id" := Str ModelIDUpload ]}.

(** The loop over [upload_urls] of [requestUpload] in [asr.go]. *)
Fixpoint requestUpload_urls (l : list iface) (i : nat) : M unit :=
  match l with
  | [] => ret tt
  | url :: rest =>
      match assert_string (Some url) with
      | Some urlStr =>
          update (fun b => set_uploadURLs (<[i := urlStr]> (uploadURLs b)) b) ;;
          requestUpload_urls rest (S i)
      | None => throw (ErrUploadURL (Z.of_nat i))
      end
  end.

(** [requestUpload] of [asr.go] (and [ccode.go]). *)
Definition requestUpload : M unit :=
  b <- this ;;
  data <- call_json
            (mkRequest "POST" API_REQ_UPLOAD (JSONBody (requestUpload_payload b))) ;;
  match assert_string (data !! "in_boss_key") with
  | Some v => update (set_inBossKey v)
  | None => throw (ErrField "in_boss_key")
  end ;;
  match assert_string (data !! "resource_id") with
  | Some v => update (set_resourceID v)
  | None => throw (ErrField "resource_id")
  end ;;
  match assert_string (data !! "upload_id") with
  | Some v => update (set_uploadID v)
  | None => throw (ErrField "upload_id")
  end ;;
  match assert_float64 (data !! "per_size") with
  | Some v => update (set_perSize (int_of_float64 v))
  | None => throw (ErrField "per_size")
  end ;;
  match assert_slice (data !! "upload_urls") with
  | None => throw (ErrField "upload_urls")
  | Some uploadURLsIface =>
      update (set_uploadURLs (replicate (length uploadURLsIface) "")) ;;
      requestUpload_urls uploadURLsIface 0 ;;
      b <- this ;;
      update (set_clips (Z.of_nat (length (uploadURLs b))))
  end.

(** The loop over [upload_urls] of [requestUpload] in [main.go]. *)
Fixpoint requestUpload_urls_main (l : list iface) (i : nat) : M unit :=
  match l with
  | [] => ret tt
  | url :: rest =>
      match assert_string (Some url) with
      | Some urlStr =>
          update (fun b => set_uploadURLs (<[i := urlStr]> (uploadURLs b)) b)
      | None => ret tt
      end ;;
      requestUpload_urls_main rest (S i)
  end.

(** [requestUpload] of [main.go] (and [unnamed/part_002]). *)
Definition requestUpload_main : M unit :=
  b <- this ;;
  data <- call_json
            (mkRequest "POST" API_REQ_UPLOAD (JSONBody (requestUpload_payload b))) ;;
  match assert_string (data !! "in_boss_key") with
  | Some v => update (set_inBossKey v)
  | None => ret tt
  end ;;
  match assert_string (data !! "resource_id") with
  | Some v => update (set_resourceID v)
  | None => ret tt
  end ;;
  match assert_string (data !! "upload_id") with
  | Some v => update (set_uploadID v)
  | None => ret tt
  end ;;
  match assert_float64 (data !! "per_size") with
  | Some v => update (set_perSize (int_of_float64 v))
  | None => ret tt
  end ;;
  match assert_slice (data !! "upload_urls") with
  | None => throw (ErrField "upload_urls")
  | Some uploadURLsIface =>
      update (set_uploadURLs (replicate (length uploadURLsIface) "")) ;;
      requestUpload_urls_main uploadURLsIface 0 ;;
      b <- this ;;
      update (set_clips (Z.of_nat (length (uploadURLs b))))
  end.

(** The etag of a part: the header, else the [etag] field of a JSON body. *)
Definition part_etag (resp : http_response) : string :=
  let etag := resp_etag resp in
  if is_empty etag then
    match json_Unmarshal E (resp_body resp) with
    | Some result =>
        match assert_string (result !! "etag") with
        | Some etagVal => etagVal
        | None => etag
        end
    | None => etag
    end
  else etag.

(** One pass through the loop of [uploadParts]. *)
Definition uploadParts_body (i : Z) : M unit :=
  b <- this ;;
  let len := Z.of_nat (length (FileBinary b)) in
  let startRange := wrap64 (i * perSize b) in
  let endRange := wrap64 ((i + 1) * perSize b) in
  let endRange := if endRange >? len then len else endRange in
  match uploadURLs b !! Z.to_nat i with
  | None => panic
  | Some url =>
      match go_slice (FileBinary b) startRange endRange with
      | None => panic
      | Some part =>
          if negb (url_ok E url) then throw ErrNewRequest else
          o <- client_Do (mkRequest "PUT" url (Bytes part)) ;;
          match o with
          | DoError => throw ErrSend
          | DoOk resp =>
              let etag := part_etag resp in
              if is_empty etag then throw (ErrNoEtag i) else
              if (Z.to_nat i <? length (etags b))%nat
              then update (set_etags (<[Z.to_nat i := etag]> (etags b)))
              else panic
          end
      end
  end.

Fixpoint uploadParts_loop (n : nat) (i : Z) : M unit :=
  match n with
  | O => ret tt
  | S n' => uploadParts_body i ;; uploadParts_loop n' (i + 1)
  end.

Definition uploadParts : M unit :=
  b <- this ;;
  (if clips b <? 0 then panic
   else update (set_etags (replicate (Z.to_nat (clips b)) ""))) ;;
  uploadParts_loop (Z.to_nat (clips b)) 0.

Definition buildEtags (b : BcutASR) : string :=
  buildEtags_loop (etags b) 0 "".

Definition commitUpload_payload (b : BcutASR) : gmap string iface :=
  {[ "InBossKey" := Str (inBossKey b);
     "ResourceId" := Str (resourceID b);
     "Etags" := Str (buildEtags b);
     "UploadId" := Str (uploadID b);
     "model_id" := Str ModelIDUpload ]}.

Definition commitUpload : M unit :=
  b <- this ;;
  data <- call_json
            (mkRequest "POST" API_COMMIT_UPLOAD (JSONBody (commitUpload_payload b))) ;;
  match assert_string (data !! "download_url") with
  | Some v => update (set_downloadURL v)
  | None => throw (ErrField "download_url")
  end.

Definition upload : M unit :=
  requestUpload ;;
  uploadParts ;;
  commitUpload.

Definition createTask_payload (b : BcutASR) : gmap string iface :=
  {[ "resource" := Str (downloadURL b);
     "model_id" := Str ModelIDUpload ]}.

Definition createTask : M unit :=
  b <- this ;;
  data <- call_json
            (mkRequest "POST" API_CREATE_TASK (JSONBody (createTask_payload b))) ;;
  match assert_string (data !! "task_id") with
  | Some v => update (set_taskID v)
  | None => throw (ErrField "task_id")
  end.

(** A poll iteration that could not read the state: warn, pause, go on. *)
Definition retry_later {A} : M (step A) :=
  emit (EvLog Warn) ;;
  emit (EvSleep RetryBaseDelay) ;;
  ret Continue.

(** One pass through the loop of [queryResult]. *)
Definition queryResult_body (ctx : context) (callback : bool) (i : Z)
    : M (step (gmap string iface)) :=
  t <- clock ;;
  emit EvSelect ;;
  match ctx_done ctx t with
  | Some why => throw (ErrCtx why)
  | None =>
      b <- this ;;
      let url := query_url (taskID b) in
      if negb (url_ok E url) then throw ErrNewRequest else
      o <- client_Do (mkRequest "GET" url NoBody) ;;
      match o with
      | DoError => retry_later
      | DoOk resp =>
          if negb (resp_read_ok resp) then retry_later else
          match json_Unmarshal E (resp_body resp) with
          | None => retry_later
          | Some result =>
              match assert_map (result !! "data") with
              | None => retry_later
              | Some data =>
                  match assert_float64 (data !! "state") with
                  | None => retry_later
                  | Some state =>
                      if (state =? 4)%float then
                        match assert_string (data !! "result") with
                        | Some resultStr =>
                            if is_empty resultStr
                            then emit (EvLog Warn) ;; throw ErrEmptyResult
                            else
                              match json_Unmarshal E resultStr with
                              | None => throw ErrParseResult
                              | Some resultData => ret (Return resultData)
                              end
                        | None => emit (EvLog Warn) ;; throw ErrEmptyResult
                        end
                      else if (state =? 3)%float then
                        emit (EvLog Error) ;;
                        throw (ErrTaskFailed state)
                      else
                        when (callback && (Z.rem i 5 =? 0))
                          (emit (EvCallback (progress i))) ;;
                        emit (EvSleep (sleepDuration i)) ;;
                        ret Continue
                  end
              end
          end
      end
  end.

(** The loop of [queryResult], [n] iterations before [MaxRetries]. *)
Fixpoint queryResult_loop (n : nat) (ctx : context) (callback : bool) (i : Z)
    : M (gmap string iface) :=
  match n with
  | O => emit (EvLog Error) ;; throw ErrTimeout
  | S n' =>
      s <- queryResult_body ctx callback i ;;
      match s with
      | Return r => ret r
      | Continue => queryResult_loop n' ctx callback (i + 1)
      end
  end.

Definition queryResult (ctx : context) (callback : bool)
    : M (gmap string iface) :=
  queryResult_loop (Z.to_nat MaxRetries) ctx callback 0.

Definition makeSegments (result : gmap string iface) : M (list DataSegment) :=
  match assert_slice (result !! "utterances") with
  | None => emit (EvLog Warn) ;; ret []
  | Some utterances => ret (makeSegments_loop utterances [])
  end.

Definition GetCacheKey (b : BcutASR) (serviceName : string) : string :=
  serviceName +:+ "_"
    +:+ md5_hex E (String.list_byte_of_string (AudioPath b) ++ FileBinary b).

Definition LoadFromCache (cacheDir cacheKey : string)
    : M (option (list DataSegment)) :=
  let cachePath := filepath_Join E cacheDir (cacheKey +:+ ".json") in
  emit (EvStat cachePath) ;;
  f <- files ;;
  match f !! cachePath with
  | None => ret None
  | Some data =>
      t <- clock ;;
      emit (EvReadFile cachePath) ;;
      if fs_fails E t then emit (EvLog Warn) ;; ret None else
      match json_Unmarshal_segments E data with
      | None => emit (EvLog Warn) ;; ret None
      | Some segments => ret (Some segments)
      end
  end.

Definition SaveToCache (cacheDir cacheKey : string)
    (segments : list DataSegment) : M unit :=
  t <- clock ;;
  emit (EvMkdirAll cacheDir) ;;
  if fs_fails E t then throw ErrMkdir else
  let cachePath := filepath_Join E cacheDir (cacheKey +:+ ".json") in
  match json_MarshalIndent E segments with
  | None => throw ErrMarshal
  | Some data =>
      t <- clock ;;
      emit (EvWriteFile cachePath data) ;;
      if fs_fails E t then throw ErrWrite else store cachePath data
  end.

Definition GetResult (ctx : context) (callback : bool)
    : M (list DataSegment) :=
  b <- this ;;
  let cacheKey := GetCacheKey b "BcutASR" in
  hit <- (if UseCache b then LoadFromCache "./cache" cacheKey else ret None) ;;
  match hit with
  | Some segments =>
      when callback (emit (EvCallback 100)) ;;
      ret segments
  | None =>
      when callback (emit (EvCallback 20)) ;;
      on_error upload (fun err => emit (EvLog Error) ;; throw (ErrUpload err)) ;;
      when callback (emit (EvCallback 50)) ;;
      on_error createTask
        (fun err => emit (EvLog Error) ;; throw (ErrCreateTask err)) ;;
      when callback (emit (EvCallback 60)) ;;
      result <- on_error (queryResult ctx callback)
                  (fun err => emit (EvLog Error) ;; throw (ErrQuery err)) ;;
      segments <- makeSegments result ;;
      when callback (emit (EvCallback 100)) ;;
      (if UseCache b && (0 <? Z.of_nat (length segments))
       then on_error (SaveToCache "./cache" cacheKey segments)
              (fun _ => emit (EvLog Warn))
       else ret tt) ;;
      ret segments
  end.

End Client.

(** ** Vocabulary of the properties *)

(** A JSON object among the entries of [utterances]. *)
Definition is_object (u : iface) : bool :=
  match u with Map _ => true | _ => false end.

(** An utterance as section 4.4 of the specification expects it: an object
    with a string [transcript] and numeric [start_time] and [end_time]. *)
Definition well_formed_utterance (u : iface) : bool :=
  match u with
  | Map o =>
      match assert_string (o !! "transcript"),
            assert_float64 (o !! "start_time"),
            assert_float64 (o !! "end_time") with
      | Some _, Some _, Some _ => true
      | _, _, _ => false
      end
  | _ => false
  end.

(** The segment [makeSegments] is to produce for an object entry. *)
Definition segment_for (o : gmap string iface) (s : DataSegment) : Prop :=
  Text s = default "" (assert_string (o !! "transcript")) /\
  StartTime s =
    (default 0 (assert_float64 (o !! "start_time")) / 1000 + 0.105)%float /\
  EndTime s =
    (default 0 (assert_float64 (o !! "end_time")) / 1000 + 0.105)%float.

(** [evs] appended to the trace of [m]. *)
Definition push (m : machine) (evs : list event) : machine :=
  mkMachine (self m) (trace m ++ evs) (fs m).

(** The logical times of the requests among [evs], the first event of
    [evs] being at time [t]. *)
Fixpoint request_times (t : nat) (evs : list event) : list nat :=
  match evs with
  | [] => []
  | EvHttp _ :: rest => t :: request_times (S t) rest
  | _ :: rest => request_times (S t) rest
  end.

(** What a poll response shows of the task: the [data] object and its
    numeric [state], or nothing (transport failure, unreadable body,
    malformed JSON, no [data] object, no numeric [state]). *)
Definition poll_state (E : env) (o : http_outcome)
    : option (gmap string iface * float) :=
  match o with
  | DoError => None
  | DoOk resp =>
      if resp_read_ok resp then
        match json_Unmarshal E (resp_body resp) with
        | Some result =>
            match assert_map (result !! "data") with
            | Some data =>
                match assert_float64 (data !! "state") with
                | Some state => Some (data, state)
                | None => None
                end
            | None => None
            end
        | None => None
        end
      else None
  end.

(** The terminal states: 4 (done) and 3 (failed). *)
Definition is_terminal (state : float) : bool :=
  ((state =? 4) || (state =? 3))%float.

(** The poll request for a task. *)
Definition poll_request (task : string) : http_request :=
  mkRequest "GET" (query_url task) NoBody.

(** The events of a poll iteration that read no state. *)
Definition transient_block (req : http_request) : list event :=
  [EvSelect; EvHttp req; EvLog Warn; EvSleep RetryBaseDelay].

(** The events of a poll iteration [i] that read a pending state. *)
Definition pending_block (req : http_request) (callback : bool) (i : Z)
    : list event :=
  [EvSelect; EvHttp req]
  ++ (if callback && (Z.rem i 5 =? 0) then [EvCallback (progress i)] else [])
  ++ [EvSleep (sleepDuration i)].

(** The pause of poll iteration [i] whose request went out at time [t]. *)
Definition poll_delay (E : env) (req : http_request) (i : Z) (t : nat) : Z :=
  match poll_state E (http_do E t req) with
  | None => RetryBaseDelay
  | Some _ => sleepDuration i
  end.

(** The outcome and the events of a poll that reads state 4. *)
Definition done_outcome (E : env) (data : gmap string iface)
    : outcome (gmap string iface) * list event :=
  match assert_string (data !! "result") with
  | Some resultStr =>
      if is_empty resultStr then (Err ErrEmptyResult, [EvLog Warn])
      else
        match json_Unmarshal E resultStr with
        | Some resultData => (Ok resultData, [])
        | None => (Err ErrParseResult, [])
        end
  | None => (Err ErrEmptyResult, [EvLog Warn])
  end.

(** One poll iteration as a function of the task, the index [i] and the
    time [t] at which it starts: what it returns and the events it adds. *)
Definition poll_iteration (E : env) (ctx : context) (callback : bool)
    (task : string) (i : Z) (t : nat)
    : outcome (step (gmap string iface)) * list event :=
  match ctx_done ctx t with
  | Some why => (Err (ErrCtx why), [EvSelect])
  | None =>
      if url_ok E (query_url task) then
        let req := poll_request task in
        match poll_state E (http_do E (S t) req) with
        | None => (Ok Continue, transient_block req)
        | Some (data, state) =>
            if (state =? 4)%float then
              match done_outcome E data with
              | (Ok r, evs) => (Ok (Return r), [EvSelect; EvHttp req] ++ evs)
              | (Err e, evs) => (Err e, [EvSelect; EvHttp req] ++ evs)
              | (Panic, evs) => (Panic, [EvSelect; EvHttp req] ++ evs)
              end
            else if (state =? 3)%float then
              (Err (ErrTaskFailed state), [EvSelect; EvHttp req; EvLog Error])
            else (Ok Continue, pending_block req callback i)
        end
      else (Err ErrNewRequest, [EvSelect])
  end.

(** The poll loop with [n] iterations left, as a function of the task,
    the index [i] and the time [t]: what it returns and the events it adds. *)
Fixpoint poll_run (E : env) (ctx : context) (callback : bool)
    (task : string) (n : nat) (i : Z) (t : nat)
    : outcome (gmap string iface) * list event :=
  match n with
  | O => (Err ErrTimeout, [EvLog Error])
  | S n' =>
      match poll_iteration E ctx callback task i t with
      | (Ok Continue, evs) =>
          let rest := poll_run E ctx callback task n' (i + 1)
                        (t + length evs) in
          (fst rest, evs ++ snd rest)
      | (Ok (Return r), evs) => (Ok r, evs)
      | (Err e, evs) => (Err e, evs)
      | (Panic, evs) => (Panic, evs)
      end
  end.

(** The back-off schedule as the specification words it. *)
Definition scheduled_delay (i : Z) : Z :=
  if i <=? 20 then 1 * Second
  else if i <=? 50 then 2 * Second
  else 3 * Second.

(** The first fault [requestUpload] is to report in the [data] object of a
    negotiation response: each of [in_boss_key], [resource_id],
    [upload_id], [per_size], [upload_urls] must be present with its type, and
    every element of [upload_urls] must be a string. *)
Fixpoint urls_fault (l : list iface) (i : Z) : option error :=
  match l with
  | [] => None
  | Str _ :: rest => urls_fault rest (i + 1)
  | _ :: _ => Some (ErrUploadURL i)
  end.

Definition negotiation_fault (data : gmap string iface) : option error :=
  match assert_string (data !! "in_boss_key") with
  | None => Some (ErrField "in_boss_key")
  | Some _ =>
  match assert_string (data !! "resource_id") with
  | None => Some (ErrField "resource_id")
  | Some _ =>
  match assert_string (data !! "upload_id") with
  | None => Some (ErrField "upload_id")
  | Some _ =>
  match assert_float64 (data !! "per_size") with
  | None => Some (ErrField "per_size")
  | Some _ =>
  match assert_slice (data !! "upload_urls") with
  | None => Some (ErrField "upload_urls")
  | Some l => urls_fault l 0
  end end end end end.

(** The strings of a list of values, a value of another type read as the
    empty string. *)
Definition strings_of (l : list iface) : list string :=
  (fun v => default "" (assert_string (Some v))) <$> l.

Definition requestUpload_request (b : BcutASR) : http_request :=
  mkRequest "POST" API_REQ_UPLOAD (JSONBody (requestUpload_payload b)).



(** The request the loop body of [uploadParts] builds for part [i];
    [None] where building it panics. *)
Definition part_request (buf : list byte) (P : Z) (urls : list string)
    (i : Z) : option http_request :=
  let len := Z.of_nat (length buf) in
  let startRange := wrap64 (i * P) in
  let endRange := wrap64 ((i + 1) * P) in
  let endRange := if endRange >? len then len else endRange in
  match urls !! Z.to_nat i with
  | None => None
  | Some url =>
      match go_slice buf startRange endRange with
      | None => None
      | Some part => Some (mkRequest "PUT" url (Bytes part))
      end
  end.

(** The receiver with the etag of part [i] stored. *)
Definition with_etag (i : Z) (etag : string) (m : machine) : machine :=
  mkMachine (set_etags (<[Z.to_nat i := etag]> (etags (self m))) (self m))
    (trace m) (fs m).

(** A computation respects a relation on machine states when every run
    takes a state to a related one. *)
Definition respects (R : relation machine) {A} (x : M A) : Prop :=
  forall m, R m (snd (x m)).

(** The trace grew by events none of which is a progress callback. *)
Definition silent_step (m m' : machine) : Prop :=
  exists evs, trace m' = trace m ++ evs /\ callbacks evs = [].

(** The cache files and the file the receiver stands for are untouched. *)
Definition frame_step (m m' : machine) : Prop :=
  fs m' = fs m /\
  AudioPath (self m') = AudioPath (self m) /\
  FileBinary (self m') = FileBinary (self m) /\
  UseCache (self m') = UseCache (self m).

(** The trace grew by events whose progress callbacks are, in order, among
    the percentages [l]. *)
Definition reports (l : list Z) {A} (x : M A) : Prop :=
  forall m, exists evs,
    trace (snd (x m)) = trace m ++ evs /\ callbacks evs `sublist_of` l.

(** The percentages the poll loop can report, in iteration order. *)
Definition poll_progress : list Z :=
  progress <$> List.filter (fun i => Z.rem i 5 =? 0) (seqZ 0 MaxRetries).

(** The percentages of a whole run, in order. *)
Definition run_progress : list Z := [20; 50; 60] ++ poll_progress ++ [100].

(** Each element is at most the next. *)
Fixpoint ascending (l : list Z) : bool :=
  match l with
  | x :: (y :: _) as rest => (x <=? y) && ascending rest
  | _ => true
  end.

(** The cache file of the input of [b]. *)
Definition cache_path (E : env) (b : BcutASR) : string :=
  filepath_Join E "./cache" (GetCacheKey E b "BcutASR" +:+ ".json").

(** ** Sample inputs *)

Definition machine0 (b : BcutASR) : machine := mkMachine b [] ∅.

Definition utterance_1000_3500 : gmap string iface :=
  {[ "transcript" := Str "hi";
     "start_time" := Float64 1000;
     "end_time" := Float64 3500 ]}.

Definition result_1000_3500 : gmap string iface :=
  {[ "utterances" := Slice [Map utterance_1000_3500] ]}.

(** An [utterances] array whose only entry is an object without fields. *)
Definition result_bare_object : gmap string iface :=
  {[ "utterances" := Slice [Map ∅] ]}.

Definition result_mixed : gmap string iface :=
  {[ "utterances" :=
       Slice [Str "noise"; Map utterance_1000_3500; Nil; Map ∅] ]}.

(** A stand-in for the JSON decoder that knows a few bodies by name. *)
Definition sample_decoder (s : string) : option (gmap string iface) :=
  if String.eqb s "pending" then
    Some {[ "data" := Map {[ "state" := Float64 0 ]} ]}
  else if String.eqb s "done" then
    Some {[ "data" := Map {[ "state" := Float64 4;
                             "result" := Str "payload" ]} ]}
  else if String.eqb s "failed" then
    Some {[ "data" := Map {[ "state" := Float64 3 ]} ]}
  else if String.eqb s "payload" then Some result_1000_3500
  else if String.eqb s "slots" then
    Some {[ "data" := Map {[ "in_boss_key" := Str "k";
                             "resource_id" := Str "r";
                             "upload_id" := Str "u";
                             "per_size" := Float64 4;
                             "upload_urls" := Slice [Str "u0"; Str "u1"]
                          ]} ]}
  else if String.eqb s "slots-too-many" then
    Some {[ "data" := Map {[ "in_boss_key" := Str "k";
                             "resource_id" := Str "r";
                             "upload_id" := Str "u";
                             "per_size" := Float64 4;
                             "upload_urls" :=
                               Slice [Str "u0"; Str "u1"; Str "u2";
                                      Str "u3"]
                          ]} ]}
  else if String.eqb s "slots-negative" then
    Some {[ "data" := Map {[ "in_boss_key" := Str "k";
                             "resource_id" := Str "r";
                             "upload_id" := Str "u";
                             "per_size" := Float64 (-1);
                             "upload_urls" := Slice [Str "u0"]
                          ]} ]}
  else if String.eqb s "committed" then
    Some {[ "data" := Map {[ "download_url" := Str "d" ]} ]}
  else if String.eqb s "created" then
    Some {[ "data" := Map {[ "task_id" := Str "t" ]} ]}
  else if String.eqb s "empty-payload" then Some ∅
  else if String.eqb s "done-empty" then
    Some {[ "data" := Map {[ "state" := Float64 4;
                             "result" := Str "empty-payload" ]} ]}
  else if String.eqb s "slots-bare" then
    Some {[ "data" := Map {[ "upload_urls" := Slice [] ]} ]}
  else if String.eqb s "slots-mistyped" then
    Some {[ "data" := Map {[ "in_boss_key" := Str "k";
                             "resource_id" := Str "r";
                             "upload_id" := Str "u";
                             "per_size" := Float64 4;
                             "upload_urls" := Slice [Str "u0"; Float64 7]
                          ]} ]}
  else None.

(** An outside that gives the same answer to every request, accepts every
    URL and never fails on files; cache files are not decoded. *)
Definition sample_env (answer : http_outcome) : env :=
  mkEnv (fun _ _ => answer) (fun _ => true) sample_decoder
    (fun _ => "0cc175b9c0f1b6a831c399e269772661")
    (fun dir file => dir +:+ "/" +:+ file)
    (fun _ => false) (fun _ => None) (fun _ => None).

Definition answer (body : string) : http_outcome :=
  DoOk (mkResponse "" body true).

Definition sample_asr : BcutASR := NewBcutASR "a.mp3" [] true.

(** A service that answers by the kind of request: the negotiation, the
    commit and the task creation by fixed bodies, every part upload with an
    etag header, every poll with [poll]. *)
Definition sample_service (negotiation poll : string) : env :=
  mkEnv
    (fun _ req =>
       if String.eqb (req_method req) "PUT" then DoOk (mkResponse "etag-1" "" true)
       else if String.eqb (req_url req) API_REQ_UPLOAD then answer negotiation
       else if String.eqb (req_url req) API_COMMIT_UPLOAD then answer "committed"
       else if String.eqb (req_url req) API_CREATE_TASK then answer "created"
       else answer poll)
    (fun _ => true) sample_decoder
    (fun _ => "0cc175b9c0f1b6a831c399e269772661")
    (fun dir file => dir +:+ "/" +:+ file)
    (fun _ => false)
    (fun _ => Some "cached")
    (fun s => if String.eqb s "cached" then Some [mkSegment "hi" 1.105 3.605]
              else None).

(** A file of five bytes. *)
Definition sample_audio : BcutASR :=
  NewBcutASR "a.mp3" ["a"; "b"; "c"; "d"; "e"]%byte true.

(** * Properties *)

(** ** Running computations *)

Ltac run :=
  cbv beta iota delta [bind ret throw panic emit clock this update files
                       store when on_error];
  cbn [fst snd self trace fs AudioPath FileBinary UseCache taskID etags
       inBossKey resourceID uploadID uploadURLs perSize clips downloadURL].

(** ** The segment mapper *)

Lemma makeSegments_loop_acc (us : list iface) (acc : list DataSegment) :
  makeSegments_loop us acc = acc ++ makeSegments_loop us [].
Proof.
  revert acc. induction us as [|u us IH]; intros acc; cbn.
  - by rewrite app_nil_r.
  - destruct u; cbn; try apply IH.
    rewrite IH. rewrite (IH (cons _ nil)). by rewrite app_assoc.
Qed.

Lemma makeSegments_loop_app (us1 us2 : list iface) :
  makeSegments_loop (us1 ++ us2) [] =
  makeSegments_loop us1 [] ++ makeSegments_loop us2 [].
Proof.
  induction us1 as [|u us1 IH]; cbn; [done|].
  destruct u; cbn; try apply IH.
  rewrite makeSegments_loop_acc, IH.
  by rewrite (makeSegments_loop_acc us1 (cons _ nil)), app_assoc.
Qed.

Lemma makeSegments_loop_object (o : gmap string iface) (us : list iface) :
  makeSegments_loop (Map o :: us) [] =
  mkSegment (default "" (assert_string (o !! "transcript")))
    (default 0 (assert_float64 (o !! "start_time")) / 1000 + TimeOffset)%float
    (default 0 (assert_float64 (o !! "end_time")) / 1000 + TimeOffset)%float
  :: makeSegments_loop us [].
Proof. cbn. by rewrite makeSegments_loop_acc. Qed.

Lemma makeSegments_loop_objects (us : list iface) :
  Forall2 (fun u s => exists o, u = Map o /\ segment_for o s)
    (List.filter is_object us) (makeSegments_loop us []).
Proof.
  induction us as [|u us IH]; cbn; [constructor|].
  destruct u; cbn; try apply IH.
  rewrite makeSegments_loop_acc. cbn. constructor; [|apply IH].
  eexists; split; [reflexivity|]. by repeat split.
Qed.

(** C6: an utterance object with millisecond times [s] and [e] is mapped to
    a segment whose times are [s/1000.0 + 0.105] and [e/1000.0 + 0.105] in
    float64 arithmetic, wherever it stands in [utterances]; and the times
    1000 and 3500 become exactly 1.105 and 3.605. *)
Theorem makeSegments_time_offset :
  (forall (m : machine) (result : gmap string iface)
          (before after : list iface) (o : gmap string iface) (s e : float),
      result !! "utterances" = Some (Slice (before ++ Map o :: after)) ->
      o !! "start_time" = Some (Float64 s) ->
      o !! "end_time" = Some (Float64 e) ->
      exists text,
        makeSegments result m =
          (Ok (makeSegments_loop before [] ++
               mkSegment text (s / 1000 + 0.105) (e / 1000 + 0.105)
               :: makeSegments_loop after []), m)) /\
  (forall m : machine,
      makeSegments result_1000_3500 m = (Ok [mkSegment "hi" 1.105 3.605], m)).
Proof.
  split.
  - intros m result before after o s e Hu Hs He.
    unfold makeSegments. rewrite Hu. cbn [assert_slice]. run.
    rewrite makeSegments_loop_app, makeSegments_loop_object, Hs, He.
    eexists. reflexivity.
  - intros m. reflexivity.
Qed.

Lemma makeSegments_time_offset_witness :
  exists text,
    makeSegments result_1000_3500 (machine0 (NewBcutASR "a.mp3" [] true)) =
      (Ok (makeSegments_loop [] [] ++
           mkSegment text (1000 / 1000 + 0.105) (3500 / 1000 + 0.105)
           :: makeSegments_loop [] []),
       machine0 (NewBcutASR "a.mp3" [] true)).
Proof.
  apply (proj1 makeSegments_time_offset _ result_1000_3500 [] []
           utterance_1000_3500 1000%float 3500%float); reflexivity.
Defined.

(** C7 as the specification words it fails: an object entry that lacks the
    expected fields is not skipped. *)
Lemma makeSegments_keeps_bare_object :
  exists segs,
    makeSegments result_bare_object (machine0 (NewBcutASR "a.mp3" [] true)) =
      (Ok segs, machine0 (NewBcutASR "a.mp3" [] true)) /\
    length segs = 1%nat /\
    length (List.filter well_formed_utterance [Map ∅]) = 0%nat.
Proof. eexists. split; [reflexivity|]. split; reflexivity. Qed.

(** C7, amended: without an [utterances] array the mapper warns and returns
    no segment and no error; with one, it returns one segment for each entry
    that is a JSON object, in order, skipping every other entry; a field an
    object lacks reads as the empty string or as 0 ms. *)
Theorem makeSegments_skips_non_objects (m : machine)
    (result : gmap string iface) :
  (assert_slice (result !! "utterances") = None ->
     makeSegments result m =
       (Ok [], mkMachine (self m) (trace m ++ [EvLog Warn]) (fs m))) /\
  (forall us, result !! "utterances" = Some (Slice us) ->
     exists segs,
       makeSegments result m = (Ok segs, m) /\
       length segs = length (List.filter is_object us) /\
       Forall2 (fun u s => exists o, u = Map o /\ segment_for o s)
         (List.filter is_object us) segs).
Proof.
  split.
  - intros H. unfold makeSegments. rewrite H. reflexivity.
  - intros us H. unfold makeSegments. rewrite H. cbn [assert_slice].
    eexists. split; [reflexivity|].
    pose proof (makeSegments_loop_objects us) as HF.
    split; [symmetry; eapply Forall2_length, HF | exact HF].
Qed.

Lemma makeSegments_skips_non_objects_witness :
  makeSegments ∅ (machine0 (NewBcutASR "a.mp3" [] true)) =
    (Ok [], mkMachine (NewBcutASR "a.mp3" [] true) [EvLog Warn] ∅) /\
  exists segs,
    makeSegments result_mixed (machine0 (NewBcutASR "a.mp3" [] true)) =
      (Ok segs, machine0 (NewBcutASR "a.mp3" [] true)) /\
    length segs =
      length (List.filter is_object
                [Str "noise"; Map utterance_1000_3500; Nil; Map ∅]) /\
    Forall2 (fun u s => exists o, u = Map o /\ segment_for o s)
      (List.filter is_object
         [Str "noise"; Map utterance_1000_3500; Nil; Map ∅]) segs.
Proof.
  split.
  - apply (proj1 (makeSegments_skips_non_objects
                    (machine0 (NewBcutASR "a.mp3" [] true)) ∅)).
    reflexivity.
  - apply (proj2 (makeSegments_skips_non_objects
                    (machine0 (NewBcutASR "a.mp3" [] true)) result_mixed)).
    reflexivity.
Defined.

(** ** Traces *)

Lemma events_since_push (m : machine) (evs : list event) :
  events_since m (push m evs) = evs.
Proof. unfold events_since, push. cbn. apply drop_app_length. Qed.

Lemma push_nil (m : machine) : push m [] = m.
Proof. destruct m. unfold push. cbn. by rewrite app_nil_r. Qed.

Lemma push_push (m : machine) (evs1 evs2 : list event) :
  push (push m evs1) evs2 = push m (evs1 ++ evs2).
Proof. unfold push. cbn. by rewrite app_assoc. Qed.

Lemma requests_app (evs1 evs2 : list event) :
  requests (evs1 ++ evs2) = requests evs1 ++ requests evs2.
Proof. apply omap_app. Qed.

Lemma sleeps_app (evs1 evs2 : list event) :
  sleeps (evs1 ++ evs2) = sleeps evs1 ++ sleeps evs2.
Proof. apply omap_app. Qed.

Lemma callbacks_app (evs1 evs2 : list event) :
  callbacks (evs1 ++ evs2) = callbacks evs1 ++ callbacks evs2.
Proof. apply omap_app. Qed.

Lemma request_times_app (t : nat) (evs1 evs2 : list event) :
  request_times t (evs1 ++ evs2) =
  request_times t evs1 ++ request_times (t + length evs1) evs2.
Proof.
  revert t. induction evs1 as [|e evs1 IH]; intros t; cbn.
  - by rewrite Nat.add_0_r.
  - replace (t + S (length evs1))%nat with (S t + length evs1)%nat by lia.
    destruct e; cbn; by rewrite IH.
Qed.

(** ** The poll loop *)

Section Poll.

Context (E : env) (ctx : context) (callback : bool).

Lemma queryResult_body_spec (i : Z) (m : machine) :
  queryResult_body E ctx callback i m =
  (fst (poll_iteration E ctx callback (taskID (self m)) i (length (trace m))),
   push m
     (snd (poll_iteration E ctx callback (taskID (self m)) i
             (length (trace m))))).
Proof.
  destruct m as [b tr f].
  unfold queryResult_body, poll_iteration, client_Do, retry_later, push,
    poll_request, poll_state, done_outcome, pending_block, transient_block.
  run.
  destruct (ctx_done ctx (length tr)) as [why|]; run; [reflexivity|].
  destruct (url_ok E (query_url (taskID b))); cbn [negb]; run; [|reflexivity].
  rewrite length_app. cbn [length].
  replace (length tr + 1)%nat with (S (length tr)) by lia.
  destruct (http_do E _ _) as [|resp]; run; cbn [fst snd];
    [by rewrite <- !app_assoc|].
  destruct (resp_read_ok resp); cbn [negb]; run; cbn [fst snd];
    [|by rewrite <- !app_assoc].
  destruct (json_Unmarshal E (resp_body resp)) as [result|]; run;
    cbn [fst snd]; [|by rewrite <- !app_assoc].
  destruct (assert_map (result !! "data")) as [data|]; run; cbn [fst snd];
    [|by rewrite <- !app_assoc].
  destruct (assert_float64 (data !! "state")) as [state|]; run; cbn [fst snd];
    [|by rewrite <- !app_assoc].
  destruct (state =? 4)%float.
  - destruct (assert_string (data !! "result")) as [resultStr|]; run;
      cbn [fst snd].
    + destruct (is_empty resultStr); run; cbn [fst snd];
        [by rewrite <- !app_assoc|].
      destruct (json_Unmarshal E resultStr); run; cbn [fst snd];
        by rewrite <- ?app_assoc, ?app_nil_r.
    + by rewrite <- !app_assoc.
  - destruct (state =? 3)%float; run; cbn [fst snd];
      [by rewrite <- !app_assoc|].
    destruct (callback && (Z.rem i 5 =? 0)); run; cbn [fst snd];
      by rewrite <- !app_assoc.
Qed.

Lemma queryResult_loop_spec (n : nat) (i : Z) (m : machine) :
  queryResult_loop E n ctx callback i m =
  (fst (poll_run E ctx callback (taskID (self m)) n i (length (trace m))),
   push m (snd (poll_run E ctx callback (taskID (self m)) n i
                  (length (trace m))))).
Proof.
  revert i m. induction n as [|n IH]; intros i m.
  - destruct m. reflexivity.
  - cbn [queryResult_loop poll_run]. unfold bind at 1.
    rewrite queryResult_body_spec.
    destruct (poll_iteration E ctx callback (taskID (self m)) i
                (length (trace m))) as [[[|r]|e|] evs]; cbn [fst snd];
      try reflexivity.
    rewrite IH. cbn [push self trace]. rewrite length_app, push_push.
    reflexivity.
Qed.

(** Every iteration starts with the select; a request, if any, comes
    second, and nothing after it is a request or a select. *)
Lemma poll_iteration_shape (task : string) (i : Z) (t : nat) :
  let r := fst (poll_iteration E ctx callback task i t) in
  let evs := snd (poll_iteration E ctx callback task i t) in
  (evs = [EvSelect] /\
   match ctx_done ctx t with
   | Some why => r = Err (ErrCtx why)
   | None => r = Err ErrNewRequest
   end) \/
  (ctx_done ctx t = None /\
   exists tail,
     evs = EvSelect :: EvHttp (poll_request task) :: tail /\
     (forall t', request_times t' tail = []) /\
     (forall k, tail !! k <> Some EvSelect)).
Proof.
  unfold poll_iteration.
  destruct (ctx_done ctx t) as [why|]; cbn [fst snd]; [by left|].
  destruct (url_ok E (query_url task)); cbn [fst snd]; [|by left].
  right. split; [done|].
  destruct (poll_state E _) as [[data state]|]; cbn [fst snd].
  - destruct (state =? 4)%float.
    + unfold done_outcome.
      destruct (assert_string (data !! "result")) as [resultStr|].
      * destruct (is_empty resultStr).
        { eexists; split; [reflexivity|]. split; [done|].
          by intros [|[|k]]. }
        destruct (json_Unmarshal E resultStr);
          (eexists; split; [reflexivity|]; split; [done|]; by intros [|k]).
      * eexists; split; [reflexivity|]. split; [done|]. by intros [|[|k]].
    + destruct (state =? 3)%float.
      * eexists; split; [reflexivity|]. split; [done|]. by intros [|[|k]].
      * unfold pending_block.
        destruct (callback && (Z.rem i 5 =? 0));
          (eexists; split; [reflexivity|]; split; [done|]).
        { by intros [|[|[|k]]]. }
        { by intros [|[|k]]. }
  - eexists; split; [reflexivity|]. split; [done|]. by intros [|[|[|k]]].
Qed.

End Poll.

(** *** Exhausting the retries *)

Section NoTerminalState.

Context (E : env) (ctx : context) (callback : bool) (task : string).

Hypothesis ctx_never_done : forall t, ctx_done ctx t = None.
Hypothesis url_accepted : url_ok E (query_url task) = true.
Hypothesis never_terminal :
  forall t data state,
    poll_state E (http_do E t (poll_request task)) = Some (data, state) ->
    is_terminal state = false.

Lemma poll_iteration_nonterminal (i : Z) (t : nat) :
  poll_iteration E ctx callback task i t =
  (Ok Continue,
   match poll_state E (http_do E (S t) (poll_request task)) with
   | None => transient_block (poll_request task)
   | Some _ => pending_block (poll_request task) callback i
   end).
Proof.
  unfold poll_iteration. rewrite ctx_never_done, url_accepted. cbn zeta.
  destruct (poll_state E _) as [[data state]|] eqn:Hst; [|reflexivity].
  apply never_terminal in Hst. unfold is_terminal in Hst.
  apply orb_false_iff in Hst as [-> ->]. reflexivity.
Qed.

Lemma poll_run_nonterminal (n : nat) (i : Z) (t : nat) :
  let run := poll_run E ctx callback task n i t in
  fst run = Err ErrTimeout /\
  requests (snd run) = replicate n (poll_request task) /\
  sleeps (snd run) =
    zip_with (poll_delay E (poll_request task)) (seqZ i (Z.of_nat n))
      (request_times t (snd run)).
Proof.
  revert i t. induction n as [|n IH]; intros i t; cbn zeta.
  - cbn. done.
  - cbn [poll_run]. rewrite poll_iteration_nonterminal. cbn [fst snd].
    specialize (IH (i + 1)).
    rewrite seqZ_cons by lia.
    replace (Z.pred (Z.of_nat (S n))) with (Z.of_nat n) by lia.
    replace (Z.succ i) with (i + 1) by lia.
    rewrite requests_app, sleeps_app, request_times_app.
    unfold poll_delay at 1.
    destruct (poll_state E _) as [st|] eqn:Hst.
    + destruct (IH (t + length (pending_block (poll_request task) callback i))%nat)
        as (Hr & Hq & Hs).
      split; [exact Hr|]. rewrite Hq, Hs. unfold pending_block.
      destruct (callback && (Z.rem i 5 =? 0)); cbn;
        unfold poll_delay at 1; rewrite Hst; done.
    + destruct (IH (t + length (transient_block (poll_request task)))%nat)
        as (Hr & Hq & Hs).
      split; [exact Hr|]. rewrite Hq, Hs. cbn.
      unfold poll_delay at 1; rewrite Hst; done.
Qed.

End NoTerminalState.

Lemma sleepDuration_schedule (i : Z) : sleepDuration i = scheduled_delay i.
Proof.
  unfold sleepDuration, scheduled_delay, RetryBaseDelay, RetryLongDelay.
  destruct (Z.gtb_spec i 50), (Z.gtb_spec i 20), (Z.leb_spec i 20),
    (Z.leb_spec i 50); lia.
Qed.

Lemma request_times_length (t : nat) (evs : list event) :
  length (request_times t evs) = length (requests evs).
Proof.
  revert t. induction evs as [|e evs IH]; intros t; [done|].
  destruct e; cbn; by rewrite ?IH.
Qed.

(** Whatever the outside does, [queryResult] sends at most [MaxRetries]
    polls. *)
Lemma queryResult_at_most_MaxRetries (E : env) (ctx : context)
    (callback : bool) (m : machine) :
  (length (requests (events_since m (snd (queryResult E ctx callback m))))
   <= 500)%nat.
Proof.
  unfold queryResult. rewrite queryResult_loop_spec. cbn [snd].
  rewrite events_since_push.
  change 500%nat with (Z.to_nat MaxRetries).
  generalize (Z.to_nat MaxRetries) as n, 0 as i, (length (trace m)) as t.
  induction n as [|n IH]; intros i t; [cbn; lia|].
  cbn [poll_run].
  pose proof (poll_iteration_shape E ctx callback (taskID (self m)) i t)
    as Hshape.
  destruct (poll_iteration E ctx callback (taskID (self m)) i t) as [r evs].
  cbn [fst snd] in Hshape.
  assert (length (requests evs) <= 1)%nat as Hone.
  { destruct Hshape as [[-> _]|(_ & tail & -> & Hreq & _)]; [cbn; lia|].
    cbn. rewrite <- (request_times_length 0), Hreq. cbn. lia. }
  destruct r as [[|r]|e|]; cbn [snd]; try lia.
  rewrite requests_app, length_app. specialize (IH (i + 1) (t + length evs)%nat).
  lia.
Qed.

(** C1 as the specification words it fails: when the endpoint cannot be
    reached at all, iteration 21 pauses for one second where the schedule
    has two. *)
Lemma transient_polls_pause_one_second :
  let run := queryResult (sample_env DoError) None false (machine0 sample_asr) in
  fst run = Err ErrTimeout /\
  sleeps (events_since (machine0 sample_asr) (snd run)) !! 21%nat
    = Some (1 * Second) /\
  scheduled_delay 21 = 2 * Second.
Proof. vm_compute. done. Qed.

(** On the samples: an endpoint that always answers with state 0 is
    polled 500 times with exactly the pauses of the schedule. *)
Example always_pending_follows_schedule :
  let run := queryResult (sample_env (answer "pending")) None true
               (machine0 sample_asr) in
  fst run = Err ErrTimeout /\
  length (requests (trace (snd run))) = 500%nat /\
  sleeps (trace (snd run)) = scheduled_delay <$> seqZ 0 MaxRetries.
Proof. vm_compute. done. Qed.

(** C1, amended: while the context is not done and the endpoint never shows
    a terminal state, [queryResult] sends exactly [MaxRetries] = 500 polls,
    one per iteration whether the iteration read a pending state or failed
    to read one, and then fails with the time-out error; an iteration that
    read a pending state pauses 1 s up to iteration 20, 2 s up to 50 and 3 s
    from 51 on, an iteration that failed to read the state pauses 1 s. *)
Theorem queryResult_exhausts_retries (E : env) (ctx : context)
    (callback : bool) (m : machine) :
  (forall t, ctx_done ctx t = None) ->
  url_ok E (query_url (taskID (self m))) = true ->
  (forall t data state,
      poll_state E (http_do E t (poll_request (taskID (self m))))
        = Some (data, state) ->
      is_terminal state = false) ->
  exists m',
    queryResult E ctx callback m = (Err ErrTimeout, m') /\
    requests (events_since m m')
      = replicate 500 (poll_request (taskID (self m))) /\
    sleeps (events_since m m')
      = zip_with (poll_delay E (poll_request (taskID (self m))))
          (seqZ 0 MaxRetries)
          (request_times (length (trace m)) (events_since m m')) /\
    (forall i, sleepDuration i = scheduled_delay i).
Proof.
  intros Hctx Hurl Hpend. unfold queryResult.
  rewrite queryResult_loop_spec.
  destruct (poll_run_nonterminal E ctx callback (taskID (self m)) Hctx Hurl
              Hpend (Z.to_nat MaxRetries) 0 (length (trace m)))
    as (Hr & Hq & Hs).
  eexists. split; [rewrite Hr; reflexivity|].
  rewrite events_since_push. split; [exact Hq|].
  split; [exact Hs|]. apply sleepDuration_schedule.
Qed.

Lemma queryResult_exhausts_retries_witness :
  exists m',
    queryResult (sample_env (answer "pending")) None true (machine0 sample_asr)
      = (Err ErrTimeout, m') /\
    requests (events_since (machine0 sample_asr) m')
      = replicate 500 (poll_request "") /\
    sleeps (events_since (machine0 sample_asr) m')
      = zip_with (poll_delay (sample_env (answer "pending")) (poll_request ""))
          (seqZ 0 MaxRetries)
          (request_times 0 (events_since (machine0 sample_asr) m')) /\
    (forall i, sleepDuration i = scheduled_delay i).
Proof.
  apply (queryResult_exhausts_retries (sample_env (answer "pending")) None
           true (machine0 sample_asr)).
  - reflexivity.
  - reflexivity.
  - intros t data state H. vm_compute in H.
    injection H as _ <-. reflexivity.
Defined.

(** *** Terminal states *)

(** C2: an iteration whose poll reads a terminal state ends [queryResult]
    there, after that one request and with no pause: on state 4 with the
    payload decoded from the string field [result], or with a fatal error
    when [result] is missing, not a string, empty or cannot be decoded; on
    state 3 with the error that carries the state. *)
Theorem queryResult_stops_on_terminal_state (E : env) (ctx : context)
    (callback : bool) (n : nat) (i : Z) (m : machine)
    (data : gmap string iface) (state : float) :
  ctx_done ctx (length (trace m)) = None ->
  url_ok E (query_url (taskID (self m))) = true ->
  poll_state E (http_do E (S (length (trace m)))
                  (poll_request (taskID (self m)))) = Some (data, state) ->
  is_terminal state = true ->
  exists m',
    queryResult_loop E (S n) ctx callback i m =
      (if (state =? 4)%float then
         match assert_string (data !! "result") with
         | Some resultStr =>
             if is_empty resultStr then Err ErrEmptyResult
             else match json_Unmarshal E resultStr with
                  | Some payload => Ok payload
                  | None => Err ErrParseResult
                  end
         | None => Err ErrEmptyResult
         end
       else Err (ErrTaskFailed state), m') /\
    requests (events_since m m') = [poll_request (taskID (self m))] /\
    sleeps (events_since m m') = [].
Proof.
  intros Hctx Hurl Hst Hterm.
  rewrite queryResult_loop_spec. cbn [poll_run].
  unfold poll_iteration. rewrite Hctx, Hurl. cbn zeta. rewrite Hst.
  unfold is_terminal in Hterm.
  destruct (state =? 4)%float.
  - unfold done_outcome.
    destruct (assert_string (data !! "result")) as [resultStr|].
    + destruct (is_empty resultStr).
      * eexists. split; [reflexivity|]. by rewrite events_since_push.
      * destruct (json_Unmarshal E resultStr);
          (eexists; split; [reflexivity|]; by rewrite events_since_push).
    + eexists. split; [reflexivity|]. by rewrite events_since_push.
  - cbn in Hterm. rewrite Hterm.
    eexists. split; [reflexivity|]. by rewrite events_since_push.
Qed.

Lemma queryResult_stops_on_terminal_state_witness :
  exists m',
    queryResult_loop (sample_env (answer "done")) (S 499) None true 0
      (machine0 sample_asr) =
      (if (4 =? 4)%float then
         match assert_string
                 (({[ "state" := Float64 4; "result" := Str "payload" ]}
                   : gmap string iface) !! "result") with
         | Some resultStr =>
             if is_empty resultStr then Err ErrEmptyResult
             else match json_Unmarshal (sample_env (answer "done")) resultStr with
                  | Some payload => Ok payload
                  | None => Err ErrParseResult
                  end
         | None => Err ErrEmptyResult
         end
       else Err (ErrTaskFailed 4), m') /\
    requests (events_since (machine0 sample_asr) m') = [poll_request ""] /\
    sleeps (events_since (machine0 sample_asr) m') = [].
Proof.
  apply (queryResult_stops_on_terminal_state (sample_env (answer "done")) None
           true 499 0 (machine0 sample_asr)
           {[ "state" := Float64 4; "result" := Str "payload" ]} 4%float);
    reflexivity.
Defined.

(** On the samples: a first poll that reads state 4 yields the decoded
    payload after one request, one that reads state 3 fails after one. *)
Example queryResult_done_at_once :
  let run := queryResult (sample_env (answer "done")) None true
               (machine0 sample_asr) in
  fst run = Ok result_1000_3500 /\
  length (requests (trace (snd run))) = 1%nat.
Proof. vm_compute. done. Qed.

Example queryResult_failed_at_once :
  let run := queryResult (sample_env (answer "failed")) None true
               (machine0 sample_asr) in
  fst run = Err (ErrTaskFailed 3) /\
  length (requests (trace (snd run))) = 1%nat.
Proof. vm_compute. done. Qed.

(** *** Cancellation *)



Section Cancellation.

Context (E : env) (ctx : context) (callback : bool) (task : string).


End Cancellation.


(** On the samples: cancelled during the second iteration, a poll of an
    ever-pending task stops at the third select, after two requests. *)
Example queryResult_cancelled_in_second_iteration :
  let run := queryResult (sample_env (answer "pending")) (Some (5%nat, Canceled))
               true (machine0 sample_asr) in
  fst run = Err (ErrCtx Canceled) /\
  request_times 0 (trace (snd run)) = [1; 5]%nat /\
  last (trace (snd run)) = Some EvSelect.
Proof. vm_compute. done. Qed.

(** ** The upload negotiation *)

Section Negotiation.

Context (E : env).

Lemma requestUpload_urls_spec (l : list iface) :
  forall (filled : list string) (m : machine),
    uploadURLs (self m) = filled ++ replicate (length l) "" ->
    exists m',
      requestUpload_urls l (length filled) m =
        (match urls_fault l (Z.of_nat (length filled)) with
         | Some e => Err e
         | None => Ok tt
         end, m') /\
      trace m' = trace m /\ fs m' = fs m /\
      (urls_fault l (Z.of_nat (length filled)) = None ->
       self m' = set_uploadURLs (filled ++ strings_of l) (self m)).
Proof.
  induction l as [|u l IH]; intros filled m Hurls.
  - exists m. cbn. repeat split; try done. intros _.
    cbn in Hurls. rewrite app_nil_r in *. rewrite <- Hurls. by destruct (self m).
  - destruct u; cbn [requestUpload_urls assert_string urls_fault];
      try (exists m; by repeat split).
    destruct m as [b tr f]. cbn [self] in Hurls. run.
    set (m1 := mkMachine (set_uploadURLs (<[length filled := s]> (uploadURLs b)) b)
                 tr f).
    assert (uploadURLs (self m1) = (filled ++ [s]) ++ replicate (length l) "")
      as Hurls1.
    { cbn. rewrite Hurls. cbn [length replicate].
      rewrite insert_app_r_alt by lia. rewrite Nat.sub_diag. cbn.
      by rewrite <- app_assoc. }
    destruct (IH (filled ++ [s]) m1 Hurls1) as (m' & Hrun & Htr & Hfs & Hself).
    rewrite length_app in Hrun, Hself. cbn [length] in Hrun, Hself.
    replace (length filled + 1)%nat with (S (length filled)) in * by lia.
    replace (Z.of_nat (S (length filled))) with (Z.of_nat (length filled) + 1)
      in * by lia.
    exists m'. rewrite Hrun. repeat split; try done.
    intros Hnone. rewrite (Hself Hnone). cbn.
    by rewrite <- app_assoc.
Qed.

Lemma assert_string_Some (v : option iface) (s : string) :
  assert_string v = Some s -> v = Some (Str s).
Proof. destruct v as [[]|]; cbn; congruence. Qed.

Lemma assert_float64_Some (v : option iface) (x : float) :
  assert_float64 v = Some x -> v = Some (Float64 x).
Proof. destruct v as [[]|]; cbn; congruence. Qed.

Lemma assert_slice_Some (v : option iface) (l : list iface) :
  assert_slice v = Some l -> v = Some (Slice l).
Proof. destruct v as [[]|]; cbn; congruence. Qed.

Lemma urls_fault_None (l : list iface) (i : Z) :
  urls_fault l i = None -> l = Str <$> strings_of l.
Proof.
  revert i. induction l as [|u l IH]; intros i H; [done|].
  destruct u; cbn in H; try done. cbn. f_equal. by eapply IH.
Qed.

(** [requestUpload] of [asr.go] checks every field: on a decoded response
    it fails with the first fault of [data], and otherwise stores exactly the
    values of the five fields. *)
Lemma requestUpload_strict (m m1 : machine) (data : gmap string iface) :
  call_json E (requestUpload_request (self m)) m = (Ok data, m1) ->
  exists m',
    requestUpload E m =
      (match negotiation_fault data with
       | Some e => Err e
       | None => Ok tt
       end, m') /\
    trace m' = trace m1 /\
    (negotiation_fault data = None ->
     exists key rid uid size urls,
       data !! "in_boss_key" = Some (Str key) /\
       data !! "resource_id" = Some (Str rid) /\
       data !! "upload_id" = Some (Str uid) /\
       data !! "per_size" = Some (Float64 size) /\
       data !! "upload_urls" = Some (Slice (Str <$> urls)) /\
       inBossKey (self m') = key /\
       resourceID (self m') = rid /\
       uploadID (self m') = uid /\
       perSize (self m') = int_of_float64 size /\
       uploadURLs (self m') = urls /\
       clips (self m') = Z.of_nat (length urls)).
Proof.
  intros Hcall. unfold requestUpload, negotiation_fault.
  unfold requestUpload_request in Hcall. run. rewrite Hcall.
  destruct m1 as [b1 tr1 f1]. run.
  destruct (assert_string (data !! "in_boss_key")) as [key|] eqn:Hkey; run;
    [|eexists; by repeat split].
  destruct (assert_string (data !! "resource_id")) as [rid|] eqn:Hrid; run;
    [|eexists; by repeat split].
  destruct (assert_string (data !! "upload_id")) as [uid|] eqn:Huid; run;
    [|eexists; by repeat split].
  destruct (assert_float64 (data !! "per_size")) as [size|] eqn:Hsize; run;
    [|eexists; by repeat split].
  destruct (assert_slice (data !! "upload_urls")) as [l|] eqn:Hurls; run;
    [|eexists; by repeat split].
  match goal with
  | |- context [requestUpload_urls l 0 ?m0] =>
      destruct (requestUpload_urls_spec l [] m0 eq_refl)
        as (m2 & Hrun & Htr & Hfs & Hself)
  end.
  cbn [length] in Hrun, Hself. change (Z.of_nat 0) with 0 in Hrun, Hself.
  rewrite Hrun. destruct m2 as [b2 tr2 f2]. cbn [self trace fs] in *.
  destruct (urls_fault l 0) eqn:Hfault; run; [eexists; by repeat split|].
  specialize (Hself eq_refl). subst b2 tr2.
  eexists. split; [reflexivity|]. split; [reflexivity|]. intros _.
  exists key, rid, uid, size, (strings_of l). cbn.
  apply assert_string_Some in Hkey, Hrid, Huid.
  apply assert_float64_Some in Hsize. apply assert_slice_Some in Hurls.
  rewrite <- (urls_fault_None l 0 Hfault). by repeat split.
Qed.

End Negotiation.

(** C4 holds for [requestUpload] of [asr.go] but not for the copy in
    [main.go]: on a response whose [data] has only an empty [upload_urls],
    [asr.go] fails naming [in_boss_key], while [main.go] reports success and
    leaves the keys empty and the part size 0; and where an element of
    [upload_urls] is a number, [asr.go] fails naming its index, while
    [main.go] succeeds with an empty URL in its place. *)
Theorem requestUpload_main_accepts_faulty_response :
  let bare := sample_env (answer "slots-bare") in
  let mistyped := sample_env (answer "slots-mistyped") in
  let m := machine0 sample_asr in
  (fst (requestUpload bare m) = Err (ErrField "in_boss_key") /\
   fst (requestUpload_main bare m) = Ok tt /\
   let b := self (snd (requestUpload_main bare m)) in
   inBossKey b = "" /\ resourceID b = "" /\ uploadID b = "" /\
   perSize b = 0 /\ uploadURLs b = [] /\ clips b = 0) /\
  (fst (requestUpload mistyped m) = Err (ErrUploadURL 1) /\
   fst (requestUpload_main mistyped m) = Ok tt /\
   uploadURLs (self (snd (requestUpload_main mistyped m))) = ["u0"; ""]).
Proof. vm_compute. done. Qed.

(** ** Uploading the parts *)

Lemma wrap64_cases (z : Z) :
  0 <= z < 2 ^ 64 ->
  (z < 2 ^ 63 /\ wrap64 z = z) \/ (2 ^ 63 <= z /\ wrap64 z = z - 2 ^ 64).
Proof.
  intros Hz. unfold wrap64.
  destruct (Z_lt_le_dec z (2 ^ 63)) as [Hlt|Hge].
  - left. split; [done|]. rewrite Z.mod_small by lia. lia.
  - right. split; [done|].
    replace (z + 2 ^ 63) with (z - 2 ^ 63 + 1 * 2 ^ 64) by lia.
    rewrite Z_mod_plus_full, Z.mod_small by lia. lia.
Qed.


Lemma part_offsets_63 (i P len : Z) :
  0 <= P <= 2 ^ 63 - 1 -> len < 2 ^ 62 -> 0 <= i -> i * P <= len ->
  0 <= i * P < 2 ^ 63 /\ 0 <= (i + 1) * P < 2 ^ 63.
Proof.
  intros HP Hlen Hi Hstart.
  assert (0 <= i * P) by (apply Z.mul_nonneg_nonneg; lia).
  destruct (decide (i = 0)) as [->|Hne]; [lia|].
  assert (P <= i * P) by nia. lia.
Qed.

Section Parts.

Context (E : env).

Lemma uploadParts_body_spec (i : Z) (m : machine) :
  uploadParts_body E i m =
  match part_request (FileBinary (self m)) (perSize (self m))
          (uploadURLs (self m)) i with
  | None => (Panic, m)
  | Some req =>
      if url_ok E (req_url req) then
        match http_do E (length (trace m)) req with
        | DoError => (Err ErrSend, push m [EvHttp req])
        | DoOk resp =>
            if is_empty (part_etag E resp)
            then (Err (ErrNoEtag i), push m [EvHttp req])
            else if (Z.to_nat i <? length (etags (self m)))%nat
                 then (Ok tt, with_etag i (part_etag E resp)
                                (push m [EvHttp req]))
                 else (Panic, push m [EvHttp req])
        end
      else (Err ErrNewRequest, m)
  end.
Proof.
  destruct m as [b tr f].
  unfold uploadParts_body, part_request, client_Do, with_etag, push. run.
  destruct (uploadURLs b !! Z.to_nat i) as [url|]; [|reflexivity].
  destruct (go_slice _ _ _) as [part|]; [|reflexivity].
  cbn [req_url]. destruct (url_ok E url); cbn [negb]; run; [|reflexivity].
  destruct (http_do E _ _) as [|resp]; run; [reflexivity|].
  destruct (is_empty (part_etag E resp)); run; [reflexivity|].
  destruct (Z.to_nat i <? length (etags b))%nat; run; reflexivity.
Qed.

Section PartRequest.

Context (buf : list byte) (P : Z) (urls : list string).

Let len : Z := Z.of_nat (length buf).


(** Building the request of a part that starts within the buffer does
    not panic, for a part size that is not negative. *)
Lemma part_request_in_bounds (i : Z) :
  0 <= P <= max_int64 -> len < 2 ^ 62 ->
  0 <= i -> (Z.to_nat i < length urls)%nat -> i * P <= len ->
  is_Some (part_request buf P urls i).
Proof.
  unfold max_int64, part_request, go_slice. fold len.
  intros HP Hlen Hi Hurl Hstart.
  destruct (lookup_lt_is_Some_2 urls (Z.to_nat i) Hurl) as [url ->].
  destruct (part_offsets_63 i P len HP Hlen Hi Hstart) as [Hlo Hhi].
  destruct (wrap64_cases (i * P)) as [[_ ->]|[? _]]; [lia| |lia].
  destruct (wrap64_cases ((i + 1) * P)) as [[_ ->]|[? _]]; [lia| |lia].
  repeat match goal with
         | |- context [Z.gtb ?a ?b] => destruct (Z.gtb_spec a b)
         | |- context [Z.leb ?a ?b] => destruct (Z.leb_spec a b)
         end; cbn [andb]; try done; nia.
Qed.

End PartRequest.

Section PartsLoop.

Context (buf : list byte) (P : Z) (urls : list string).

Hypothesis part_size_positive : 0 < P <= max_int64.
Hypothesis buffer_length_is_int : Z.of_nat (length buf) <= max_int64.



End PartsLoop.

End Parts.

Example sample_upload_runs :
  let run := upload (sample_service "slots" "done") (machine0 sample_audio) in
  fst run = Ok tt /\
  etags (self (snd run)) = ["etag-1"; "etag-1"] /\
  length (requests (trace (snd run))) = 4%nat.
Proof. vm_compute. done. Qed.

Example sample_GetResult_runs :
  let run := GetResult (sample_service "slots" "done") None true
               (machine0 sample_audio) in
  fst run = Ok [mkSegment "hi" 1.105 3.605] /\
  callbacks (trace (snd run)) = [20; 50; 60; 100] /\
  length (requests (trace (snd run))) = 6%nat.
Proof. vm_compute. done. Qed.

(** *** The commit string *)






(** *** Parts, etags and the commit *)



(** On the samples: five bytes in parts of four go out as the ranges
    0..4 and 4..5, and the commit carries both etags joined by a comma. *)
Example sample_parts :
  let E := sample_service "slots" "done" in
  let run := upload E (machine0 sample_audio) in
  requests (trace (snd run)) !! 1%nat =
    Some (mkRequest "PUT" "u0" (Bytes ["a"; "b"; "c"; "d"]%byte)) /\
  requests (trace (snd run)) !! 2%nat =
    Some (mkRequest "PUT" "u1" (Bytes ["e"]%byte)) /\
  buildEtags (self (snd run)) = "etag-1,etag-1".
Proof. vm_compute. done. Qed.

(** *** Slice bounds *)

Lemma uploadParts_loop_no_panic (E : env) (buf : list byte) (P : Z)
    (urls : list string) (n : nat) :
  0 <= P <= max_int64 ->
  Z.of_nat (length buf) < 2 ^ 62 ->
  (Z.of_nat (length urls) - 1) * P <= Z.of_nat (length buf) ->
  forall (k : nat) (m : machine),
    FileBinary (self m) = buf -> perSize (self m) = P ->
    uploadURLs (self m) = urls ->
    length (etags (self m)) = length urls ->
    (k + n)%nat = length urls ->
    fst (uploadParts_loop E n (Z.of_nat k) m) <> Panic.
Proof.
  intros HP Hlen Hlast.
  induction n as [|n IH]; intros k m Hbuf HPm Hurls Hetags Hkn; [done|].
  cbn [uploadParts_loop]. unfold bind at 1.
  rewrite uploadParts_body_spec, Hbuf, HPm, Hurls.
  destruct (part_request_in_bounds buf P urls (Z.of_nat k)) as [req ->];
    try done; try nia.
  destruct (url_ok E (req_url req)); [|done].
  destruct (http_do E _ _) as [|resp]; [done|].
  destruct (is_empty (part_etag E resp)); [done|].
  rewrite Nat2Z.id.
  destruct (Nat.ltb_spec k (length (etags (self m)))) as [Hk|Hk]; [|lia].
  replace (Z.of_nat k + 1) with (Z.of_nat (S k)) by lia.
  apply IH; try done.
  - cbn. rewrite Nat2Z.id, length_insert. exact Hetags.
  - lia.
Qed.

(** C10 as it is worded fails: a negotiation response with one upload URL
    and the part size -1 satisfies [(len(upload_urls) - 1) * perSize <=
    len(FileBinary)], and the upper bound of the first slice is -1. *)
Lemma negative_part_size_panics :
  let E := sample_service "slots-negative" "done" in
  let m := snd (requestUpload E (machine0 sample_audio)) in
  fst (requestUpload E (machine0 sample_audio)) = Ok tt /\
  perSize (self m) = -1 /\
  (Z.of_nat (length (uploadURLs (self m))) - 1) * perSize (self m)
    <= Z.of_nat (length (FileBinary (self m))) /\
  fst (uploadParts E m) = Panic.
Proof. vm_compute. repeat split; done. Qed.

(** C10, amended: the number of parts is the number of [upload_urls] of
    the negotiation response, and part [i] is cut as
    [FileBinary[i*perSize : min((i+1)*perSize, len)]] with no check of the
    lower bound.  For a part size that is not negative, if
    [(len(upload_urls) - 1) * perSize <= len(FileBinary)] then no slice or
    index in [uploadParts] is out of range (the buffer being shorter than
    2^62 bytes, as any buffer in memory is); and a response with more URLs
    than [ceil(len(FileBinary)/perSize)] makes it panic. *)
Theorem uploadParts_slice_bounds :
  (forall (E : env) (m m1 : machine) (data : gmap string iface),
      call_json E (requestUpload_request (self m)) m = (Ok data, m1) ->
      negotiation_fault data = None ->
      exists urls,
        data !! "upload_urls" = Some (Slice urls) /\
        fst (requestUpload E m) = Ok tt /\
        clips (self (snd (requestUpload E m))) = Z.of_nat (length urls)) /\
  (forall (E : env) (m : machine),
      let b := self m in
      clips b = Z.of_nat (length (uploadURLs b)) ->
      0 <= perSize b <= max_int64 ->
      Z.of_nat (length (FileBinary b)) < 2 ^ 62 ->
      (Z.of_nat (length (uploadURLs b)) - 1) * perSize b
        <= Z.of_nat (length (FileBinary b)) ->
      fst (uploadParts E m) <> Panic) /\
  (let E := sample_service "slots-too-many" "done" in
   let m := snd (requestUpload E (machine0 sample_audio)) in
   let b := self m in
   fst (requestUpload E (machine0 sample_audio)) = Ok tt /\
   perSize b = 4 /\ length (FileBinary b) = 5%nat /\
   length (uploadURLs b) = 4%nat /\
   wrap64 (2 * perSize b) > Z.of_nat (length (FileBinary b)) /\
   fst (uploadParts E m) = Panic /\
   length (requests (events_since m (snd (uploadParts E m)))) = 2%nat).
Proof.
  split; [|split].
  - intros E m m1 data Hcall Hfault.
    destruct (requestUpload_strict E m m1 data Hcall)
      as (m' & Hrun & _ & Hok).
    rewrite Hfault in Hrun.
    destruct (Hok Hfault)
      as (key & rid & uid & size & urls & _ & _ & _ & _ & Hurls & _ & _ & _ &
          _ & Hstored & Hclips).
    exists (Str <$> urls). rewrite Hrun. cbn [fst snd].
    split; [done|]. split; [done|]. by rewrite Hclips, length_fmap.
  - intros E m b Hclips HP Hlen Hlast. subst b.
    unfold uploadParts. destruct m as [b tr f]. cbn [self] in *. run.
    destruct (Z.ltb_spec (clips b) 0) as [Hneg|Hpos]; [lia|]. run.
    rewrite Hclips, Nat2Z.id.
    apply (uploadParts_loop_no_panic E (FileBinary b) (perSize b)
             (uploadURLs b) (length (uploadURLs b)) HP Hlen Hlast 0%nat);
      try done.
    cbn. apply length_replicate.
  - vm_compute. repeat split; try done.
Qed.

Lemma uploadParts_slice_bounds_witness :
  let E := sample_service "slots" "done" in
  let m0 := machine0 sample_audio in
  let m := snd (requestUpload E m0) in
  (exists urls,
      ({[ "in_boss_key" := Str "k"; "resource_id" := Str "r";
          "upload_id" := Str "u"; "per_size" := Float64 4;
          "upload_urls" := Slice [Str "u0"; Str "u1"] ]}
       : gmap string iface) !! "upload_urls" = Some (Slice urls) /\
      fst (requestUpload E m0) = Ok tt /\
      clips (self (snd (requestUpload E m0))) = Z.of_nat (length urls)) /\
  fst (uploadParts E m) <> Panic.
Proof.
  split.
  - apply (proj1 uploadParts_slice_bounds (sample_service "slots" "done")
             (machine0 sample_audio)
             (snd (call_json (sample_service "slots" "done")
                     (requestUpload_request sample_audio)
                     (machine0 sample_audio)))).
    + reflexivity.
    + reflexivity.
  - apply (proj1 (proj2 uploadParts_slice_bounds)
             (sample_service "slots" "done")
             (snd (requestUpload (sample_service "slots" "done")
                     (machine0 sample_audio)))).
    + reflexivity.
    + vm_compute. split; intros H; discriminate H.
    + vm_compute. reflexivity.
    + vm_compute. intros H; discriminate H.
Defined.

(** ** Frames *)

Section Respects.

Context (R : relation machine) `{!PreOrder R}.

Lemma respects_ret {A} (a : A) : respects R (ret a).
Proof. intros m. reflexivity. Qed.

Lemma respects_throw {A} (e : error) : respects R (throw (A := A) e).
Proof. intros m. reflexivity. Qed.

Lemma respects_panic {A} : respects R (panic (A := A)).
Proof. intros m. reflexivity. Qed.

Lemma respects_clock : respects R clock.
Proof. intros m. reflexivity. Qed.

Lemma respects_this : respects R this.
Proof. intros m. reflexivity. Qed.

Lemma respects_files : respects R files.
Proof. intros m. reflexivity. Qed.

Lemma respects_bind {A B} (x : M A) (k : A -> M B) :
  respects R x -> (forall a, respects R (k a)) -> respects R (bind x k).
Proof.
  intros Hx Hk m. unfold bind. specialize (Hx m).
  destruct (x m) as [[a|e|] m']; cbn [snd] in *; [|done|done].
  etrans; [exact Hx|apply Hk].
Qed.

Lemma respects_on_error {A} (x : M A) (h : error -> M A) :
  respects R x -> (forall e, respects R (h e)) -> respects R (on_error x h).
Proof.
  intros Hx Hh m. unfold on_error. specialize (Hx m).
  destruct (x m) as [[a|e|] m']; cbn [snd] in *; [done| |done].
  etrans; [exact Hx|apply Hh].
Qed.

End Respects.

Global Instance silent_step_preorder : PreOrder silent_step.
Proof.
  split.
  - intros m. exists []. by rewrite app_nil_r.
  - intros m1 m2 m3 (evs1 & H1 & C1) (evs2 & H2 & C2).
    exists (evs1 ++ evs2). rewrite H2, H1, app_assoc. split; [done|].
    by rewrite callbacks_app, C1, C2.
Qed.

Global Instance frame_step_preorder : PreOrder frame_step.
Proof.
  split.
  - intros m. by repeat split.
  - intros m1 m2 m3 (F1 & A1 & B1 & U1) (F2 & A2 & B2 & U2).
    repeat split; congruence.
Qed.

Lemma silent_emit (e : event) :
  (forall p, e <> EvCallback p) -> respects silent_step (emit e).
Proof.
  intros He m. exists [e]. split; [done|].
  destruct e; try done. by destruct (He percent).
Qed.

Lemma silent_update (f : BcutASR -> BcutASR) : respects silent_step (update f).
Proof. intros m. exists []. cbn. by rewrite app_nil_r. Qed.

Lemma silent_store (path data : string) :
  respects silent_step (store path data).
Proof. intros m. exists []. cbn. by rewrite app_nil_r. Qed.

Lemma frame_emit (e : event) : respects frame_step (emit e).
Proof. intros m. by repeat split. Qed.

Lemma frame_update (f : BcutASR -> BcutASR) :
  (forall b, AudioPath (f b) = AudioPath b /\
             FileBinary (f b) = FileBinary b /\
             UseCache (f b) = UseCache b) ->
  respects frame_step (update f).
Proof. intros Hf m. split; [done|]. apply Hf. Qed.

Section Frames.

Context (E : env) (R : relation machine) `{!PreOrder R}.

Hypothesis R_http : forall req, respects R (emit (EvHttp req)).
Hypothesis R_update : forall f,
  (forall b, AudioPath (f b) = AudioPath b /\
             FileBinary (f b) = FileBinary b /\
             UseCache (f b) = UseCache b) ->
  respects R (update f).

Ltac leaf :=
  first [ simple apply (respects_ret R) | simple apply (respects_throw R)
        | simple apply (respects_panic R) | simple apply (respects_clock R)
        | simple apply (respects_this R) | simple apply R_http
        | simple apply R_update; intros []; by repeat split ].

Ltac go :=
  repeat first
    [ leaf
    | simple apply (respects_bind R); [|intros ?]
    | match goal with
      | |- respects _ (match ?x with _ => _ end) => destruct x
      | |- respects _ (if ?c then _ else _) => destruct c
      end ].

Lemma respects_call_json (req : http_request) : respects R (call_json E req).
Proof. unfold call_json, client_Do. go. Qed.

Lemma respects_requestUpload_urls (l : list iface) (i : nat) :
  respects R (requestUpload_urls l i).
Proof.
  revert i. induction l as [|u l IH]; intros i; cbn [requestUpload_urls]; go.
  apply IH.
Qed.

Lemma respects_requestUpload : respects R (requestUpload E).
Proof.
  unfold requestUpload. go; try apply respects_call_json;
    try apply respects_requestUpload_urls.
Qed.

Lemma respects_uploadParts_loop (n : nat) (i : Z) :
  respects R (uploadParts_loop E n i).
Proof.
  revert i. induction n as [|n IH]; intros i; cbn [uploadParts_loop]; go.
  - unfold uploadParts_body, client_Do. go.
  - apply IH.
Qed.

Lemma respects_uploadParts : respects R (uploadParts E).
Proof. unfold uploadParts. go. apply respects_uploadParts_loop. Qed.

Lemma respects_commitUpload : respects R (commitUpload E).
Proof. unfold commitUpload. go; apply respects_call_json. Qed.

Lemma respects_upload : respects R (upload E).
Proof.
  unfold upload. go;
    [apply respects_requestUpload | apply respects_uploadParts
    | apply respects_commitUpload].
Qed.

Lemma respects_createTask : respects R (createTask E).
Proof. unfold createTask. go; apply respects_call_json. Qed.

End Frames.

Lemma upload_silent (E : env) : respects silent_step (upload E).
Proof.
  apply respects_upload; [apply _| |intros f _; apply silent_update].
  intros req. apply silent_emit. intros p [=].
Qed.

Lemma upload_frame (E : env) : respects frame_step (upload E).
Proof.
  apply respects_upload;
    [apply _|intros req; apply frame_emit|apply frame_update].
Qed.

Lemma createTask_silent (E : env) : respects silent_step (createTask E).
Proof.
  apply respects_createTask; [apply _| |intros f _; apply silent_update].
  intros req. apply silent_emit. intros p [=].
Qed.

Lemma createTask_frame (E : env) : respects frame_step (createTask E).
Proof.
  apply respects_createTask;
    [apply _|intros req; apply frame_emit|apply frame_update].
Qed.

(** ** Progress *)

Lemma reports_silent {A} (x : M A) : respects silent_step x -> reports [] x.
Proof.
  intros Hx m. destruct (Hx m) as (evs & Htr & Hcb).
  exists evs. by rewrite Hcb.
Qed.

Lemma reports_weaken {A} (l l' : list Z) (x : M A) :
  l `sublist_of` l' -> reports l x -> reports l' x.
Proof.
  intros Hl Hx m. destruct (Hx m) as (evs & Htr & Hcb).
  exists evs. split; [done|]. by etrans.
Qed.

Lemma reports_bind {A B} (l1 l2 : list Z) (x : M A) (k : A -> M B) :
  reports l1 x -> (forall a, reports l2 (k a)) -> reports (l1 ++ l2) (bind x k).
Proof.
  intros Hx Hk m. unfold bind. destruct (Hx m) as (evs1 & Htr1 & Hcb1).
  destruct (x m) as [[a|e|] m1]; cbn [snd] in *.
  - destruct (Hk a m1) as (evs2 & Htr2 & Hcb2).
    exists (evs1 ++ evs2). rewrite Htr2, Htr1, app_assoc. split; [done|].
    rewrite callbacks_app. by apply sublist_app.
  - exists evs1. split; [done|]. by apply sublist_inserts_r.
  - exists evs1. split; [done|]. by apply sublist_inserts_r.
Qed.

Lemma reports_on_error {A} (l1 l2 : list Z) (x : M A) (h : error -> M A) :
  reports l1 x -> (forall e, reports l2 (h e)) ->
  reports (l1 ++ l2) (on_error x h).
Proof.
  intros Hx Hh m. unfold on_error. destruct (Hx m) as (evs1 & Htr1 & Hcb1).
  destruct (x m) as [[a|e|] m1]; cbn [snd] in *.
  - exists evs1. split; [done|]. by apply sublist_inserts_r.
  - destruct (Hh e m1) as (evs2 & Htr2 & Hcb2).
    exists (evs1 ++ evs2). rewrite Htr2, Htr1, app_assoc. split; [done|].
    rewrite callbacks_app. by apply sublist_app.
  - exists evs1. split; [done|]. by apply sublist_inserts_r.
Qed.

Lemma reports_callback (callback : bool) (p : Z) :
  reports [p] (when callback (emit (EvCallback p))).
Proof.
  intros m. destruct callback; cbn.
  - exists [EvCallback p]. done.
  - exists []. rewrite app_nil_r. split; [done|]. apply sublist_nil_l.
Qed.

Lemma reports_failure {A} (wrap : error -> error) (err : error) :
  reports [] (emit (EvLog Error) ;; throw (A := A) (wrap err)).
Proof.
  intros m. exists [EvLog Error]. split; [reflexivity|]. cbn. reflexivity.
Qed.

Lemma poll_iteration_callbacks (E : env) (ctx : context) (callback : bool)
    (task : string) (i : Z) (t : nat) :
  let evs := snd (poll_iteration E ctx callback task i t) in
  callbacks evs = [] \/
  (callback = true /\ Z.rem i 5 = 0 /\ callbacks evs = [progress i]).
Proof.
  unfold poll_iteration.
  destruct (ctx_done ctx t); [by left|].
  destruct (url_ok E _); [|by left].
  destruct (poll_state E _) as [[data state]|]; [|by left].
  destruct (state =? 4)%float.
  { unfold done_outcome. destruct (assert_string _) as [resultStr|]; [|by left].
    destruct (is_empty resultStr); [by left|].
    destruct (json_Unmarshal E resultStr); by left. }
  destruct (state =? 3)%float; [by left|].
  unfold pending_block. destruct callback; [|by left].
  destruct (Z.eqb_spec (Z.rem i 5) 0); [by right|by left].
Qed.

Lemma poll_run_callbacks (E : env) (ctx : context) (callback : bool)
    (task : string) (n : nat) :
  forall (i : Z) (t : nat),
    callbacks (snd (poll_run E ctx callback task n i t)) `sublist_of`
    progress <$> List.filter (fun j => Z.rem j 5 =? 0) (seqZ i (Z.of_nat n)).
Proof.
  induction n as [|n IH]; intros i t.
  - cbn. apply sublist_nil_l.
  - cbn [poll_run]. rewrite seqZ_cons by lia.
    replace (Z.pred (Z.of_nat (S n))) with (Z.of_nat n) by lia.
    replace (Z.succ i) with (i + 1) by lia.
    pose proof (poll_iteration_callbacks E ctx callback task i t) as Hit.
    destruct (poll_iteration E ctx callback task i t) as [r evs].
    cbn [snd] in Hit.
    assert (callbacks evs `sublist_of`
            progress <$> List.filter (fun j => Z.rem j 5 =? 0)
                           (i :: seqZ (i + 1) (Z.of_nat n))) as Hhere.
    { destruct Hit as [->|(_ & Hi & ->)]; [apply sublist_nil_l|].
      cbn [List.filter]. rewrite Hi. cbn. apply sublist_skip, sublist_nil_l. }
    destruct r as [[|r]|e|]; cbn [snd]; try exact Hhere.
    rewrite callbacks_app. specialize (IH (i + 1) (t + length evs)%nat).
    destruct Hit as [->|(_ & Hi & ->)].
    + cbn [List.filter app]. destruct (Z.rem i 5 =? 0); [|exact IH].
      cbn [fmap list_fmap]. by apply sublist_cons.
    + cbn [List.filter]. rewrite Hi. cbn. by apply sublist_skip.
Qed.

Lemma reports_queryResult (E : env) (ctx : context) (callback : bool) :
  reports poll_progress (queryResult E ctx callback).
Proof.
  intros m. unfold queryResult. rewrite queryResult_loop_spec.
  eexists. split; [reflexivity|]. apply poll_run_callbacks.
Qed.

Lemma makeSegments_silent (result : gmap string iface) :
  respects silent_step (makeSegments result).
Proof.
  intros m. unfold makeSegments. destruct (assert_slice _).
  - reflexivity.
  - by exists [EvLog Warn].
Qed.

Lemma LoadFromCache_silent (E : env) (cacheDir cacheKey : string) :
  respects silent_step (LoadFromCache E cacheDir cacheKey).
Proof.
  unfold LoadFromCache.
  repeat first
    [ simple apply (respects_ret silent_step)
    | simple apply (respects_clock silent_step)
    | simple apply (respects_files silent_step)
    | simple apply silent_emit; intros ? [=]
    | simple apply (respects_bind silent_step); [|intros ?]
    | match goal with
      | |- respects _ (match ?x with _ => _ end) => destruct x
      | |- respects _ (if ?c then _ else _) => destruct c
      end ].
Qed.

Lemma SaveToCache_silent (E : env) (cacheDir cacheKey : string)
    (segments : list DataSegment) :
  respects silent_step
    (on_error (SaveToCache E cacheDir cacheKey segments)
       (fun _ => emit (EvLog Warn))).
Proof.
  unfold SaveToCache.
  repeat first
    [ simple apply (respects_ret silent_step)
    | simple apply (respects_throw silent_step)
    | simple apply (respects_clock silent_step)
    | simple apply silent_store
    | simple apply silent_emit; intros ? [=]
    | simple apply (respects_bind silent_step); [|intros ?]
    | simple apply (respects_on_error silent_step); [|intros ?]
    | match goal with
      | |- respects _ (match ?x with _ => _ end) => destruct x
      | |- respects _ (if ?c then _ else _) => destruct c
      end ].
Qed.

Lemma reports_GetResult_from (E : env) (ctx : context) (callback : bool)
    (polled : list Z) :
  reports polled (queryResult E ctx callback) ->
  reports ([20; 50; 60] ++ polled ++ [100]) (GetResult E ctx callback).
Proof.
  intros Hpoll. unfold GetResult.
  apply (reports_bind [] ([20; 50; 60] ++ polled ++ [100]));
    [apply reports_silent, respects_this; apply _|].
  intros b.
  apply (reports_bind [] ([20; 50; 60] ++ polled ++ [100])).
  { apply reports_silent. destruct (UseCache b);
      [apply LoadFromCache_silent|apply respects_ret; apply _]. }
  intros [segments|].
  - apply (reports_weaken ([100] ++ [])).
    { apply sublist_inserts_l, sublist_inserts_l. reflexivity. }
    apply reports_bind; [apply reports_callback|].
    intros _. apply reports_silent, respects_ret; apply _.
  - apply (reports_weaken
             ([20] ++ ([] ++ []) ++ [50] ++ ([] ++ []) ++ [60]
              ++ (polled ++ []) ++ [] ++ [100] ++ [] ++ [])).
    { cbn [app]. rewrite !app_nil_r. reflexivity. }
    apply reports_bind; [apply reports_callback|]. intros _.
    apply reports_bind.
    { apply reports_on_error; [apply reports_silent, upload_silent|].
      intros e. apply (reports_failure ErrUpload). }
    intros _. apply reports_bind; [apply reports_callback|]. intros _.
    apply reports_bind.
    { apply reports_on_error; [apply reports_silent, createTask_silent|].
      intros e. apply (reports_failure ErrCreateTask). }
    intros _. apply reports_bind; [apply reports_callback|]. intros _.
    apply reports_bind.
    { apply reports_on_error; [exact Hpoll|].
      intros e. apply (reports_failure ErrQuery). }
    intros result. apply reports_bind.
    { apply reports_silent, makeSegments_silent. }
    intros segments. apply reports_bind; [apply reports_callback|]. intros _.
    apply reports_bind.
    { apply reports_silent.
      destruct (UseCache b && (0 <? Z.of_nat (length segments)));
        [apply SaveToCache_silent|apply respects_ret; apply _]. }
    intros _. apply reports_silent, respects_ret; apply _.
Qed.

Lemma reports_GetResult (E : env) (ctx : context) (callback : bool) :
  reports run_progress (GetResult E ctx callback).
Proof. apply reports_GetResult_from, reports_queryResult. Qed.

Lemma ascending_sorted (l : list Z) :
  ascending l = true -> StronglySorted Z.le l.
Proof.
  intros H. apply Sorted_StronglySorted; [intros x y z; lia|].
  induction l as [|x [|y l] IH]; [constructor|by repeat constructor|].
  cbn [ascending] in H. apply andb_true_iff in H as [Hxy H].
  constructor; [by apply IH|]. constructor. by apply Z.leb_le.
Qed.

Lemma sublist_sorted (l1 l2 : list Z) :
  l1 `sublist_of` l2 -> StronglySorted Z.le l2 -> StronglySorted Z.le l1.
Proof.
  induction 1 as [|x l1 l2 Hsub IH|x l1 l2 Hsub IH]; intros Hs; [done| |].
  - apply StronglySorted_inv in Hs as [Hs Hx].
    constructor; [by apply IH|].
    apply Forall_forall. intros y Hy.
    rewrite Forall_forall in Hx. apply Hx. by eapply elem_of_sublist.
  - apply StronglySorted_inv in Hs as [Hs _]. by apply IH.
Qed.

Lemma run_progress_sorted : StronglySorted Z.le run_progress.
Proof. apply ascending_sorted. vm_compute. reflexivity. Qed.

Lemma progress_formula (i : Z) :
  0 <= i < MaxRetries -> progress i = 60 + i * 39 / MaxRetries.
Proof.
  intros Hi.
  assert (forallb (fun j => progress j =? 60 + j * 39 / MaxRetries)
            (seqZ 0 MaxRetries) = true) as Hall by (vm_compute; reflexivity).
  rewrite forallb_forall in Hall.
  apply Z.eqb_eq, Hall, list_elem_of_In, elem_of_seqZ. lia.
Qed.

Lemma progress_capped (i : Z) : progress i <= 99.
Proof.
  unfold progress. cbv zeta.
  destruct (Z.gtb_spec
              (wrap64 (60 + int_of_float64
                              (float64_of_int i / float64_of_int MaxRetries * 39)))
              99); lia.
Qed.

(** C9: the percentages a run of [GetResult] hands to the callback never
    decrease, whether it ends well or not: they are, in order, among 20, 50,
    60, the poll percentages and 100.  During the poll an iteration calls the
    callback at most once, and only when its index [i] is a multiple of 5
    (and the state it read is pending), with [60 + floor(i/MaxRetries * 39)],
    which never exceeds 99. *)
Theorem GetResult_progress_monotone :
  (forall (E : env) (ctx : context) (callback : bool) (m : machine),
      StronglySorted Z.le
        (callbacks (events_since m (snd (GetResult E ctx callback m))))) /\
  (forall (E : env) (ctx : context) (callback : bool) (m : machine),
      callbacks (events_since m (snd (queryResult E ctx callback m)))
        `sublist_of` poll_progress) /\
  (forall (E : env) (ctx : context) (callback : bool) (i : Z) (m : machine),
      let evs := events_since m (snd (queryResult_body E ctx callback i m)) in
      callbacks evs = [] \/
      (callback = true /\ Z.rem i 5 = 0 /\ callbacks evs = [progress i])) /\
  (forall i, 0 <= i < MaxRetries ->
             progress i = 60 + i * 39 / MaxRetries /\ progress i <= 99).
Proof.
  split; [|split; [|split]].
  - intros E ctx callback m.
    destruct (reports_GetResult E ctx callback m) as (evs & Htr & Hsub).
    unfold events_since. rewrite Htr, drop_app_length.
    eapply sublist_sorted; [exact Hsub|apply run_progress_sorted].
  - intros E ctx callback m.
    destruct (reports_queryResult E ctx callback m) as (evs & Htr & Hsub).
    unfold events_since. by rewrite Htr, drop_app_length.
  - intros E ctx callback i m. cbn zeta.
    rewrite queryResult_body_spec. cbn [snd]. rewrite events_since_push.
    apply poll_iteration_callbacks.
  - intros i Hi. split; [by apply progress_formula|apply progress_capped].
Qed.

Lemma GetResult_progress_monotone_witness :
  progress 255 = 60 + 255 * 39 / MaxRetries /\ progress 255 <= 99.
Proof.
  apply (proj2 (proj2 (proj2 GetResult_progress_monotone)) 255).
  unfold MaxRetries. lia.
Defined.

(** ** The cache *)

Lemma bind_Ok_inv {A B} (x : M A) (k : A -> M B) (m m2 : machine) (b : B) :
  bind x k m = (Ok b, m2) ->
  exists a m1, x m = (Ok a, m1) /\ k a m1 = (Ok b, m2).
Proof.
  unfold bind. destruct (x m) as [[a|e|] m1]; [|done|done].
  intros H. by exists a, m1.
Qed.

Lemma on_error_failing_Ok_inv {A} (x : M A) (wrap : error -> error)
    (m m' : machine) (a : A) :
  on_error x (fun err => emit (EvLog Error) ;; throw (wrap err)) m = (Ok a, m') ->
  x m = (Ok a, m').
Proof. unfold on_error. by destruct (x m) as [[a'|e|] m1]. Qed.

Lemma when_emit_run (c : bool) (e : event) (m : machine) :
  when c (emit e) m = (Ok tt, push m (if c then [e] else [])).
Proof. destruct c; cbn; [done|]. by rewrite push_nil. Qed.

Section Cache.

Context (E : env).

Lemma LoadFromCache_cases (b : BcutASR) (m : machine) :
  exists hit evs,
    LoadFromCache E "./cache" (GetCacheKey E b "BcutASR") m
      = (Ok hit, push m evs) /\
    requests evs = [] /\ callbacks evs = [] /\
    (forall segs, hit = Some segs ->
       exists data, fs m !! cache_path E b = Some data /\
                    json_Unmarshal_segments E data = Some segs).
Proof.
  destruct m as [b0 tr f]. unfold LoadFromCache, cache_path. run.
  set (p := filepath_Join E "./cache" (GetCacheKey E b "BcutASR" +:+ ".json")).
  destruct (f !! p) as [data|] eqn:Hp; run.
  2:{ exists None, [EvStat p]. by repeat split. }
  destruct (fs_fails E _); run.
  { exists None, [EvStat p; EvReadFile p; EvLog Warn]. unfold push. cbn.
    rewrite <- !app_assoc. by repeat split. }
  destruct (json_Unmarshal_segments E data) as [segs|] eqn:Hun; run.
  - exists (Some segs), [EvStat p; EvReadFile p]. unfold push. cbn.
    rewrite <- !app_assoc. repeat split; try done.
    intros segs' [= <-]. by exists data.
  - exists None, [EvStat p; EvReadFile p; EvLog Warn]. unfold push. cbn.
    rewrite <- !app_assoc. by repeat split.
Qed.

Lemma LoadFromCache_hit (b : BcutASR) (m : machine) (data : string)
    (segs : list DataSegment) :
  fs m !! cache_path E b = Some data ->
  fs_fails E (S (length (trace m))) = false ->
  json_Unmarshal_segments E data = Some segs ->
  LoadFromCache E "./cache" (GetCacheKey E b "BcutASR") m =
    (Ok (Some segs), push m [EvStat (cache_path E b); EvReadFile (cache_path E b)]).
Proof.
  destruct m as [b0 tr f]. unfold LoadFromCache, cache_path. cbn [fs trace].
  intros Hp Hfail Hun. run. rewrite Hp. run.
  rewrite length_app. cbn [length].
  replace (length tr + 1)%nat with (S (length tr)) by lia.
  rewrite Hfail, Hun. unfold push. cbn. by rewrite <- !app_assoc.
Qed.

Lemma SaveToCache_run (b : BcutASR) (m : machine)
    (segs : list DataSegment) (data : string) :
  (forall t, fs_fails E t = false) ->
  json_MarshalIndent E segs = Some data ->
  SaveToCache E "./cache" (GetCacheKey E b "BcutASR") segs m =
    (Ok tt,
     mkMachine (self m)
       (trace m ++ [EvMkdirAll "./cache"; EvWriteFile (cache_path E b) data])
       (<[cache_path E b := data]> (fs m))).
Proof.
  destruct m as [b0 tr f]. unfold SaveToCache, cache_path.
  intros Hfail Hmar. run. rewrite !Hfail, Hmar. run. rewrite Hfail.
  by rewrite <- !app_assoc.
Qed.

Lemma GetResult_hit (ctx : context) (callback : bool) (m mA : machine)
    (segs : list DataSegment) :
  UseCache (self m) = true ->
  LoadFromCache E "./cache" (GetCacheKey E (self m) "BcutASR") m
    = (Ok (Some segs), mA) ->
  GetResult E ctx callback m =
    (Ok segs, push mA (if callback then [EvCallback 100] else [])).
Proof.
  intros HU Hload. unfold GetResult. unfold bind at 1. unfold this.
  cbv beta iota zeta. rewrite HU. unfold bind at 1. rewrite Hload.
  unfold bind. rewrite when_emit_run. reflexivity.
Qed.

End Cache.

Lemma push_frame (m : machine) (evs : list event) : frame_step m (push m evs).
Proof. by repeat split. Qed.

Lemma queryResult_frame (E : env) (ctx : context) (callback : bool) :
  respects frame_step (queryResult E ctx callback).
Proof.
  intros m. unfold queryResult. rewrite queryResult_loop_spec.
  apply push_frame.
Qed.

Lemma makeSegments_frame (result : gmap string iface) :
  respects frame_step (makeSegments result).
Proof.
  intros m. unfold makeSegments. destruct (assert_slice _); by repeat split.
Qed.

Section CacheWrite.

Context (E : env).

Hypothesis files_never_fail : forall t, fs_fails E t = false.

(** A run on a cache miss that succeeds with at least one segment leaves
    the encoded segments in the cache file of the input. *)
Lemma GetResult_miss_writes (ctx : context) (callback : bool)
    (m mA m1 : machine) (segs : list DataSegment) (data : string) :
  UseCache (self m) = true ->
  LoadFromCache E "./cache" (GetCacheKey E (self m) "BcutASR") m
    = (Ok None, mA) ->
  frame_step m mA ->
  GetResult E ctx callback m = (Ok segs, m1) ->
  segs <> [] ->
  json_MarshalIndent E segs = Some data ->
  fs m1 !! cache_path E (self m) = Some data /\
  AudioPath (self m1) = AudioPath (self m) /\
  FileBinary (self m1) = FileBinary (self m) /\
  UseCache (self m1) = UseCache (self m).
Proof.
  intros HU Hload FA Hrun Hne Hmar. unfold GetResult in Hrun.
  apply bind_Ok_inv in Hrun as (b & m0 & Hthis & Hrun).
  injection Hthis as <- <-. rewrite HU in Hrun.
  apply bind_Ok_inv in Hrun as (hit & mA' & Hload' & Hrun).
  rewrite Hload in Hload'. injection Hload' as <- <-.
  apply bind_Ok_inv in Hrun as ([] & mB & H20 & Hrun).
  rewrite when_emit_run in H20. injection H20 as <-.
  apply bind_Ok_inv in Hrun as ([] & mC & Hup & Hrun).
  apply on_error_failing_Ok_inv in Hup.
  apply bind_Ok_inv in Hrun as ([] & mD & H50 & Hrun).
  rewrite when_emit_run in H50. injection H50 as <-.
  apply bind_Ok_inv in Hrun as ([] & mE & Htask & Hrun).
  apply on_error_failing_Ok_inv in Htask.
  apply bind_Ok_inv in Hrun as ([] & mF & H60 & Hrun).
  rewrite when_emit_run in H60. injection H60 as <-.
  apply bind_Ok_inv in Hrun as (result & mG & Hquery & Hrun).
  apply on_error_failing_Ok_inv in Hquery.
  apply bind_Ok_inv in Hrun as (segments & mH & Hmake & Hrun).
  apply bind_Ok_inv in Hrun as ([] & mI & H100 & Hrun).
  rewrite when_emit_run in H100. injection H100 as <-.
  apply bind_Ok_inv in Hrun as ([] & mJ & Hsave & Hrun).
  injection Hrun as -> ->.
  assert (frame_step m (push mH (if callback then [EvCallback 100] else [])))
    as Fr.
  { etrans; [exact FA|]. etrans; [apply push_frame|].
    etrans; [|apply push_frame].
    pose proof (upload_frame E
                  (push mA (if callback then [EvCallback 20] else []))) as F1.
    rewrite Hup in F1. etrans; [exact F1|]. etrans; [apply push_frame|].
    pose proof (createTask_frame E
                  (push mC (if callback then [EvCallback 50] else []))) as F2.
    rewrite Htask in F2. etrans; [exact F2|]. etrans; [apply push_frame|].
    pose proof (queryResult_frame E ctx callback
                  (push mE (if callback then [EvCallback 60] else []))) as F3.
    rewrite Hquery in F3. etrans; [exact F3|].
    pose proof (makeSegments_frame result mG) as F4.
    by rewrite Hmake in F4. }
  destruct segs as [|s segs]; [done|].
  rewrite andb_true_r in Hsave. cbn [length] in Hsave.
  replace (0 <? Z.of_nat (S (length segs))) with true in Hsave
    by (symmetry; apply Z.ltb_lt; lia).
  unfold on_error in Hsave.
  rewrite (SaveToCache_run E (self m) _ (s :: segs) data files_never_fail Hmar)
    in Hsave.
  injection Hsave as <-. cbn [fs self].
  destruct Fr as (Ffs & FAu & FBi & FUse). cbn [self push] in *.
  split; [apply lookup_insert_eq|]. done.
Qed.

End CacheWrite.

(** C8 as it is worded fails: a run that succeeds with no segment writes no
    cache entry, and the next run goes through the network again. *)
Lemma empty_result_is_not_cached :
  let E := sample_service "slots" "done-empty" in
  let first := GetResult E None true (machine0 sample_audio) in
  let second := GetResult E None true (snd first) in
  fst first = Ok [] /\
  fs (snd first) !! cache_path E sample_audio = None /\
  fst second = Ok [] /\
  length (requests (events_since (machine0 sample_audio) (snd first)))
    = 6%nat /\
  length (requests (events_since (snd first) (snd second))) = 6%nat.
Proof. vm_compute. done. Qed.

(** C8, amended: with caching enabled, a call that finds a readable
    cache entry under the content-hash key of its file returns the segments
    of the entry at once, reports 100 and sends no request; and after a
    call that succeeded with at least one segment, no file operation having
    failed and the segments surviving the JSON round trip, the entry is in
    the cache, and a second call returns the same segments from it, sends no
    request and leaves the cache files as they are. *)
Theorem GetResult_cache_idempotent (E : env) :
  (forall (ctx : context) (callback : bool) (m mA : machine)
          (segs : list DataSegment),
      UseCache (self m) = true ->
      LoadFromCache E "./cache" (GetCacheKey E (self m) "BcutASR") m
        = (Ok (Some segs), mA) ->
      exists m',
        GetResult E ctx callback m = (Ok segs, m') /\
        requests (events_since m m') = [] /\
        callbacks (events_since m m') = (if callback then [100] else [])) /\
  (forall (ctx ctx' : context) (callback callback' : bool) (m m1 : machine)
          (segs : list DataSegment) (data : string),
      UseCache (self m) = true ->
      (forall t, fs_fails E t = false) ->
      GetResult E ctx callback m = (Ok segs, m1) ->
      segs <> [] ->
      json_MarshalIndent E segs = Some data ->
      json_Unmarshal_segments E data = Some segs ->
      exists stored m2,
        fs m1 !! cache_path E (self m) = Some stored /\
        json_Unmarshal_segments E stored = Some segs /\
        GetResult E ctx' callback' m1 = (Ok segs, m2) /\
        requests (events_since m1 m2) = [] /\
        fs m2 = fs m1).
Proof.
  assert (forall (ctx : context) (callback : bool) (m mA : machine)
                 (segs : list DataSegment),
             UseCache (self m) = true ->
             LoadFromCache E "./cache" (GetCacheKey E (self m) "BcutASR") m
               = (Ok (Some segs), mA) ->
             exists m',
               GetResult E ctx callback m = (Ok segs, m') /\
               requests (events_since m m') = [] /\
               callbacks (events_since m m')
                 = (if callback then [100] else []) /\
               fs m' = fs m) as Hhit.
  { intros ctx callback m mA segs HU Hload.
    destruct (LoadFromCache_cases E (self m) m)
      as (hit & evs & Hload' & Hreq & Hcb & _).
    rewrite Hload in Hload'. injection Hload' as <- ->.
    eexists. split; [by apply GetResult_hit|].
    rewrite push_push, events_since_push, requests_app, callbacks_app.
    rewrite Hreq, Hcb. by destruct callback. }
  split.
  { intros ctx callback m mA segs HU Hload.
    destruct (Hhit ctx callback m mA segs HU Hload) as (m' & ? & ? & ? & _).
    by exists m'. }
  intros ctx ctx' callback callback' m m1 segs data HU Hfiles Hrun Hne Hmar Hun.
  assert (exists stored,
             fs m1 !! cache_path E (self m) = Some stored /\
             json_Unmarshal_segments E stored = Some segs /\
             frame_step m m1 \/
             fs m1 !! cache_path E (self m) = Some stored /\
             json_Unmarshal_segments E stored = Some segs /\
             AudioPath (self m1) = AudioPath (self m) /\
             FileBinary (self m1) = FileBinary (self m) /\
             UseCache (self m1) = UseCache (self m))
    as (stored & Hstored).
  { destruct (LoadFromCache_cases E (self m) m)
      as (hit & evs & Hload & _ & _ & Hhit').
    destruct hit as [segs0|].
    - destruct (Hhit' segs0 eq_refl) as (data0 & Hp & Hun0).
      rewrite (GetResult_hit E ctx callback m _ segs0 HU Hload) in Hrun.
      injection Hrun as <- <-. exists data0. left.
      rewrite push_push. by repeat split.
    - exists data. right.
      destruct (GetResult_miss_writes E Hfiles ctx callback m _ m1 segs data
                  HU Hload (push_frame m evs) Hrun Hne Hmar)
        as (Hp & HA & HB & HUse).
      by repeat split. }
  assert (fs m1 !! cache_path E (self m1) = Some stored /\
          json_Unmarshal_segments E stored = Some segs /\
          UseCache (self m1) = true /\
          fs m1 !! cache_path E (self m) = Some stored)
    as (Hp & Hun' & HU1 & Hp0).
  { assert (forall b b' : BcutASR,
               AudioPath b' = AudioPath b -> FileBinary b' = FileBinary b ->
               cache_path E b' = cache_path E b) as Hpath.
    { intros b b' HA HB. unfold cache_path, GetCacheKey. by rewrite HA, HB. }
    destruct Hstored as [(Hp & Hun' & Ffs & FA & FB & FU)
                        |(Hp & Hun' & FA & FB & FU)];
      rewrite (Hpath _ _ FA FB); repeat split; try done; congruence. }
  exists stored.
  pose proof (LoadFromCache_hit E (self m1) m1 stored segs Hp
                (Hfiles _) Hun') as Hload1.
  destruct (Hhit ctx' callback' m1 _ segs HU1 Hload1)
    as (m2 & Hrun2 & Hreq2 & _ & Hfs2).
  exists m2. by repeat split.
Qed.

Lemma GetResult_cache_idempotent_witness :
  let E := sample_service "slots" "done" in
  let m := machine0 sample_audio in
  let m1 := snd (GetResult E None true m) in
  (exists m',
      GetResult E None true m1 = (Ok [mkSegment "hi" 1.105 3.605], m') /\
      requests (events_since m1 m') = [] /\
      callbacks (events_since m1 m') = [100]) /\
  exists stored m2,
    fs m1 !! cache_path E (self m) = Some stored /\
    json_Unmarshal_segments E stored = Some [mkSegment "hi" 1.105 3.605] /\
    GetResult E None true m1 = (Ok [mkSegment "hi" 1.105 3.605], m2) /\
    requests (events_since m1 m2) = [] /\
    fs m2 = fs m1.
Proof.
  split.
  - apply (proj1 (GetResult_cache_idempotent (sample_service "slots" "done"))
             None true
             (snd (GetResult (sample_service "slots" "done") None true
                     (machine0 sample_audio)))
             (snd (LoadFromCache (sample_service "slots" "done") "./cache"
                     (GetCacheKey (sample_service "slots" "done") sample_audio
                        "BcutASR")
                     (snd (GetResult (sample_service "slots" "done") None true
                             (machine0 sample_audio)))))).
    + reflexivity.
    + vm_compute. reflexivity.
  - apply (proj2 (GetResult_cache_idempotent (sample_service "slots" "done"))
             None None true true (machine0 sample_audio) _ _ "cached").
    + reflexivity.
    + intros t. reflexivity.
    + vm_compute. reflexivity.
    + discriminate.
    + reflexivity.
    + reflexivity.
Defined.
